(** * Quokka [Program]: a shallow embedding of
      [bindings/python/quokka/program.py]

    The Python class [Program] is embedded as pure functions over explicit
    records.  Python exceptions become the [Raise] constructor of [result],
    insertion-ordered [dict]s become association lists with in-place update,
    attribute assignment during [__init__] becomes a state of optional
    fields threaded through a small state-and-exception monad, and the
    file system and the exporter process of [from_binary] become explicit
    oracles. *)

From Stdlib Require Import ZArith List String Ascii Bool Lia Sorted.
From Stdlib Require Import HexadecimalString.
From Stdlib Require DecimalString.
Import ListNotations.
Local Open Scope string_scope.
Local Open Scope list_scope.
Local Open Scope Z_scope.

Set Implicit Arguments.

(** ** Python values: exceptions and results *)

Module Py.

(** The exception classes [program.py] raises or lets through, each with
    the message it is built with. *)
Inductive exn : Type :=
| QuokkaError (msg : string)
| ChunkMissingError (msg : string)
| FunctionMissingError (msg : string)
| IndexError (msg : string)
| ValueError (msg : string)
| KeyError (msg : string)
| AttributeError (msg : string)
| NameError (msg : string)
| FileNotFoundError (msg : string)
| DecodeError (msg : string)
| CalledProcessError (returncode : Z)
| TimeoutExpired.

Inductive result (A : Type) : Type :=
| Ok (a : A)
| Raise (e : exn).
Arguments Ok {A} a.
Arguments Raise {A} e.

Definition is_ok {A} (r : result A) : bool :=
  match r with Ok _ => true | Raise _ => false end.

(** [f"{address:x}"]: lower-case hexadecimal, with a sign for negatives. *)
Definition format_x (a : Z) : string :=
  NilZero.string_of_int (Z.to_hex_int a).

(** [needle in haystack] on [str]. *)
Fixpoint str_contains (needle haystack : string) : bool :=
  if String.prefix needle haystack then true
  else match haystack with
       | EmptyString => false
       | String _ rest => str_contains needle rest
       end.

(** *** Insertion-ordered dictionaries

    A Python [dict] keeps its keys in insertion order and assignment to a
    key already present updates the value where it stands. *)
Section Dict.
Variables K V : Type.
Variable eqb : K -> K -> bool.

Definition dict := list (K * V).

Definition empty : dict := [].

Fixpoint get (d : dict) (k : K) : option V :=
  match d with
  | [] => None
  | (k', v) :: d' => if eqb k' k then Some v else get d' k
  end.

Fixpoint set (d : dict) (k : K) (v : V) : dict :=
  match d with
  | [] => [(k, v)]
  | (k', v') :: d' =>
      if eqb k' k then (k', v) :: d' else (k', v') :: set d' k v
  end.

Definition contains (d : dict) (k : K) : bool :=
  match get d k with Some _ => true | None => false end.

Definition keys (d : dict) : list K := map fst d.
Definition values (d : dict) : list V := map snd d.
Definition items (d : dict) : list (K * V) := d.
End Dict.

End Py.
Import Py.

(** ** Data model *)

Definition AddressT := Z.
Definition Index := Z.

(** Modelled from the spec: [quokka.types.FunctionType] is not part of the
    source file.  The spec names NORMAL and THUNK and speaks of library,
    extern and imported functions; [all_FunctionType] is [list(FunctionType)],
    the members in declaration order. *)
Inductive FunctionType : Type :=
| NORMAL | IMPORTED | LIBRARY | THUNK | EXTERN | INVALID.

Definition all_FunctionType : list FunctionType :=
  [NORMAL; IMPORTED; LIBRARY; THUNK; EXTERN; INVALID].

Definition FunctionType_eqb (s t : FunctionType) : bool :=
  match s, t with
  | NORMAL, NORMAL | IMPORTED, IMPORTED | LIBRARY, LIBRARY
  | THUNK, THUNK | EXTERN, EXTERN | INVALID, INVALID => true
  | _, _ => false
  end.

(** [x in xs] on a list of function types. *)
Definition type_in (t : FunctionType) (ts : list FunctionType) : bool :=
  existsb (FunctionType_eqb t) ts.

Inductive ExporterMode : Type := MODE_LIGHT | MODE_NORMAL | MODE_FULL.

Inductive HashKind : Type := HASH_SHA256 | HASH_MD5.

Record Instruction : Type := mkInstruction {
  inst_address : AddressT;
  inst_mnemonic : string
}.

(** *** The export (the protobuf message [quokka.pb.Quokka]) *)

Record HashProto : Type := mkHashProto {
  hash_type : HashKind;
  hash_value : string
}.

Record ChunkProto : Type := mkChunkProto {
  cp_start : AddressT;
  cp_end : AddressT;
  cp_type : FunctionType;
  cp_fake : bool;
  cp_calls : list AddressT;
  cp_instructions : list Instruction
}.

Record FunctionProto : Type := mkFunctionProto {
  fp_start : AddressT;
  fp_name : string;
  fp_type : FunctionType;
  fp_chunks : list Index
}.

Record Quokka : Type := mkQuokka {
  exporter_meta_mode : ExporterMode;
  exporter_meta_version : string;
  meta_base_addr : AddressT;
  meta_hash : HashProto;
  meta_isa : Z;
  meta_address_size : Z;
  meta_endianess : Z;
  meta_executable_name : string;
  function_chunks : list ChunkProto;
  functions : list FunctionProto
}.

(** *** Chunks, SuperChunks and Functions

    Modelled from the spec: the classes [quokka.Chunk], [quokka.SuperChunk]
    and [quokka.Function] are not part of the source file.  A Chunk is a
    contiguous analysed region identified by its index, with an address
    range, a type, its outgoing call-target addresses and its instructions
    queryable by address.  A SuperChunk is split into constituent Chunks
    keyed by (chunk_index, block_index); here the constituents are a list
    and the block index of a constituent is its position.  A Function has a
    start address, a name and a FunctionType and references chunk
    indices. *)
Record Chunk : Type := mkChunk {
  proto_index : Index;
  start : AddressT;
  chunk_end : AddressT;
  chunk_type : FunctionType;
  fake : bool;
  calls : list AddressT;
  instructions : list Instruction
}.

Record SuperChunk : Type := mkSuperChunk {
  sc_proto_index : Index;
  sc_chunks : list Chunk
}.

Record Function : Type := mkFunction {
  f_start : AddressT;
  f_name : string;
  f_type : FunctionType;
  index_to_address : list Index
}.

(** The entries of [Program.chunks]: [Union[quokka.Chunk, quokka.SuperChunk]].
    [isinstance] on an entry is a match on the constructor. *)
Inductive ChunkEntry : Type :=
| EChunk (c : Chunk)
| ESuperChunk (sc : SuperChunk).

Module ChunkOps.

(** [quokka.Chunk(chunk_index, program=self)]: the view of the raw chunk
    record at [chunk_index]. *)
Definition new (chunk_index : Index) (cp : ChunkProto) : Chunk :=
  {| proto_index := chunk_index;
     start := cp_start cp;
     chunk_end := cp_end cp;
     chunk_type := cp_type cp;
     fake := cp_fake cp;
     calls := cp_calls cp;
     instructions := cp_instructions cp |}.

(** [chunk.in_chunk(address)]: the address lies in the range of the
    chunk. *)
Definition in_chunk (c : Chunk) (address : AddressT) : bool :=
  (start c <=? address) && (address <? chunk_end c).

(** [chunk.get_instruction(address)]: the instruction whose head is at
    [address]; when there is none it raises IndexError, the exception
    [Program.get_instruction] catches around this call and documents. *)
Definition get_instruction (c : Chunk) (address : AddressT)
  : result Instruction :=
  match find (fun i => inst_address i =? address) (instructions c) with
  | Some i => Ok i
  | None => Raise (IndexError "Unable to find the instruction")
  end.

End ChunkOps.

Module SuperChunkOps.

(** [super_chunk.values()]: the constituents, by ascending block index. *)
Definition values (sc : SuperChunk) : list Chunk := sc_chunks sc.

(** [super_chunk.starts]: constituent start address to constituent. *)
Definition starts (sc : SuperChunk) : dict AddressT Chunk :=
  fold_left (fun d c => Py.set Z.eqb d (start c) c) (sc_chunks sc)
            (Py.empty AddressT Chunk).

(** [super_chunk.get_chunk_by_index(chunk_index, block_index)]. *)
Definition get_chunk_by_index (sc : SuperChunk)
           (chunk_index block_index : Index) : result Chunk :=
  if block_index <? 0
  then Raise (ChunkMissingError "Unable to find the chunk in the super chunk")
  else match nth_error (sc_chunks sc) (Z.to_nat block_index) with
       | Some c => Ok c
       | None =>
           Raise (ChunkMissingError "Unable to find the chunk in the super chunk")
       end.

Definition in_chunk (sc : SuperChunk) (address : AddressT) : bool :=
  existsb (fun c => ChunkOps.in_chunk c address) (sc_chunks sc).

Fixpoint get_instruction_in (cs : list Chunk) (address : AddressT)
  : result Instruction :=
  match cs with
  | [] => Raise (IndexError "Unable to find the instruction")
  | c :: cs' =>
      match ChunkOps.get_instruction c address with
      | Ok i => Ok i
      | Raise _ => get_instruction_in cs' address
      end
  end.

Definition get_instruction (sc : SuperChunk) (address : AddressT)
  : result Instruction :=
  get_instruction_in (sc_chunks sc) address.

End SuperChunkOps.

(** Methods every entry of the chunk map answers, whichever class it has. *)
Definition entry_in_chunk (e : ChunkEntry) (address : AddressT) : bool :=
  match e with
  | EChunk c => ChunkOps.in_chunk c address
  | ESuperChunk sc => SuperChunkOps.in_chunk sc address
  end.

Definition entry_get_instruction (e : ChunkEntry) (address : AddressT)
  : result Instruction :=
  match e with
  | EChunk c => ChunkOps.get_instruction c address
  | ESuperChunk sc => SuperChunkOps.get_instruction sc address
  end.

(** [quokka.Function(func, self)]: the view of a raw function record. *)
Definition Function_new (fp : FunctionProto) : Function :=
  {| f_start := fp_start fp;
     f_name := fp_name fp;
     f_type := fp_type fp;
     index_to_address := fp_chunks fp |}.

(** Python [==] between the two kinds of object the constructor compares:
    a [FunctionType] member and a [Function].  Objects of the two classes
    are never equal to one another. *)
Inductive pyobj : Type :=
| PyFunctionType (t : FunctionType)
| PyFunction (f : Function).

Definition Function_eqb (f g : Function) : bool :=
  (f_start f =? f_start g) && String.eqb (f_name f) (f_name g)
  && FunctionType_eqb (f_type f) (f_type g)
  && (if list_eq_dec Z.eq_dec (index_to_address f) (index_to_address g)
      then true else false).

Definition py_eq (a b : pyobj) : bool :=
  match a, b with
  | PyFunctionType s, PyFunctionType t => FunctionType_eqb s t
  | PyFunction f, PyFunction g => Function_eqb f g
  | _, _ => false
  end.

(** ** External collaborators

    What [program.py] calls but does not define. *)

(** Modelled from the spec: the function [parse_version] is not part of
    the source file.  The spec compares the major version first and the
    full version second; a parsed version is a non-empty tuple of integers,
    its head the major version ([proto_version[0]]), and parsing a string
    may raise. *)
Definition VersionTuple : Type := (Z * list Z)%type.

(** [program.py] uses the name [parse_version] at lines 105 and 106 and
    neither imports nor defines it: in the file as it is written the name
    is unbound, and looking it up raises NameError.  The field
    [parse_version] is what the namespace of the module holds for the
    name: [None] for the file as written, [Some parse] once the name is
    bound. *)
Record Externals : Type := mkExternals {
  quokka_version : string;                    (* quokka.__version__ *)
  parse_version : option (string -> result VersionTuple);
  split_chunk : Chunk -> ChunkEntry;          (* quokka.analysis.split_chunk *)
  with_suffix_empty : string -> string        (* pathlib: p.with_suffix("") *)
}.

(** The files the constructor and [from_binary] look at. *)
Record FileSystem : Type := mkFileSystem {
  is_file : string -> bool;
  (* open(path, "rb").read() followed by ParseFromString *)
  read_export : string -> result Quokka;
  (* digest of the content of a file under an algorithm *)
  file_digest : HashKind -> string -> string
}.

(** Modelled from the spec: [quokka.check_hash] is not part of the source
    file.  It computes the content hash of the executable with the algorithm
    the export stores and compares it to the stored value. *)
Definition check_hash (fs : FileSystem) (h : HashProto) (exec_path : string)
  : bool :=
  String.eqb (file_digest fs (hash_type h) exec_path) (hash_value h).

Inductive LogRecord : Type :=
| LogDebug (msg : string)
| LogInfo (msg : string)
| LogWarning (msg : string)
| LogError (msg : string).

(** ** The object under construction

    [self] while [__init__] runs: the items of the [dict] the class
    inherits from, the attributes assigned so far ([None] before the
    assignment) and what was sent to the logger.  [self.proto] is first a
    message nothing was parsed into ([Blank]) and holds the export once
    [ParseFromString] has returned ([Filled]).  The attributes holding
    other collaborators ([addresser], [isa], [arch], [endianness],
    [executable], [references], [data_holder]) carry no behaviour of this
    file and are left out; building them comes after the hash check and is
    taken to succeed. *)
Inductive Message : Type :=
| Blank
| Filled (q : Quokka).

Record Self : Type := mkSelf {
  self_items : dict AddressT Function;
  attr_proto : option Message;
  attr_export_file : option string;
  attr_mode : option ExporterMode;
  attr_base_address : option AddressT;
  attr_chunks : option (dict Index ChunkEntry);
  attr_fun_names : option (dict string Function);
  self_log : list LogRecord
}.

Definition new_self : Self :=
  mkSelf (Py.empty _ _) None None None None None None [].

Definition with_items (s : Self) (d : dict AddressT Function) : Self :=
  mkSelf d (attr_proto s) (attr_export_file s) (attr_mode s)
         (attr_base_address s) (attr_chunks s) (attr_fun_names s) (self_log s).
Definition with_proto (s : Self) (p : Message) : Self :=
  mkSelf (self_items s) (Some p) (attr_export_file s) (attr_mode s)
         (attr_base_address s) (attr_chunks s) (attr_fun_names s) (self_log s).
Definition with_export_file (s : Self) (p : string) : Self :=
  mkSelf (self_items s) (attr_proto s) (Some p) (attr_mode s)
         (attr_base_address s) (attr_chunks s) (attr_fun_names s) (self_log s).
Definition with_mode (s : Self) (m : ExporterMode) : Self :=
  mkSelf (self_items s) (attr_proto s) (attr_export_file s) (Some m)
         (attr_base_address s) (attr_chunks s) (attr_fun_names s) (self_log s).
Definition with_base_address (s : Self) (a : AddressT) : Self :=
  mkSelf (self_items s) (attr_proto s) (attr_export_file s) (attr_mode s)
         (Some a) (attr_chunks s) (attr_fun_names s) (self_log s).
Definition with_chunks (s : Self) (d : dict Index ChunkEntry) : Self :=
  mkSelf (self_items s) (attr_proto s) (attr_export_file s) (attr_mode s)
         (attr_base_address s) (Some d) (attr_fun_names s) (self_log s).
Definition with_fun_names (s : Self) (d : dict string Function) : Self :=
  mkSelf (self_items s) (attr_proto s) (attr_export_file s) (attr_mode s)
         (attr_base_address s) (attr_chunks s) (Some d) (self_log s).
Definition with_log (s : Self) (l : LogRecord) : Self :=
  mkSelf (self_items s) (attr_proto s) (attr_export_file s) (attr_mode s)
         (attr_base_address s) (attr_chunks s) (attr_fun_names s)
         (self_log s ++ [l]).

Definition replace_log (s : Self) (l : list LogRecord) : Self :=
  mkSelf (self_items s) (attr_proto s) (attr_export_file s) (attr_mode s)
         (attr_base_address s) (attr_chunks s) (attr_fun_names s) l.

(** *** State and exceptions *)
Module Init.

Definition M (A : Type) : Type := Self -> Self * result A.

Definition ret {A} (a : A) : M A := fun s => (s, Ok a).

Definition bind {A B} (m : M A) (k : A -> M B) : M B :=
  fun s => match m s with
           | (s', Ok a) => k a s'
           | (s', Raise e) => (s', Raise e)
           end.

Definition raise {A} (e : exn) : M A := fun s => (s, Raise e).

Definition lift {A} (r : result A) : M A := fun s => (s, r).

Definition modify (f : Self -> Self) : M unit := fun s => (f s, Ok tt).

(** Reading an attribute that was never assigned is an [AttributeError]
    in Python; the constructor reads only what it has assigned. *)
Definition read {A} (name : string) (f : Self -> option A) : M A :=
  fun s => match f s with
           | Some a => (s, Ok a)
           | None => (s, Raise (AttributeError name))
           end.

Definition logger (l : LogRecord) : M unit := modify (fun s => with_log s l).

Fixpoint for_each {A} (xs : list A) (body : A -> M unit) : M unit :=
  match xs with
  | [] => ret tt
  | x :: xs' => bind (body x) (fun _ => for_each xs' body)
  end.

End Init.

Notation "x <- m ;; k" := (Init.bind m (fun x => k))
  (at level 61, m at next level, right associativity).
Notation "m ;;; k" := (Init.bind m (fun _ => k))
  (at level 61, right associativity).

(** [enumerate(xs)], counting from [i]. *)
Fixpoint enumerate_from {A} (i : Z) (xs : list A) : list (Z * A) :=
  match xs with
  | [] => []
  | x :: xs' => (i, x) :: enumerate_from (i + 1) xs'
  end.

Definition enumerate {A} (xs : list A) : list (Z * A) := enumerate_from 0 xs.

(** ** [Program.__init__] *)

Section Constructor.
Variable X : Externals.
Variable fs : FileSystem.

(** The body of [for chunk_index, _ in enumerate(self.proto.function_chunks)]. *)
Definition init_chunk (item : Z * ChunkProto) : Init.M unit :=
  let (chunk_index, cp) := item in
  let chunk := ChunkOps.new chunk_index cp in
  let entry := if fake chunk then split_chunk X chunk else EChunk chunk in
  chunks <- Init.read "chunks" attr_chunks ;;
  Init.modify (fun s => with_chunks s (Py.set Z.eqb chunks chunk_index entry)).

(** The body of [for func in self.proto.functions]. *)
Definition init_function (func : FunctionProto) : Init.M unit :=
  let function := Function_new func in
  Init.modify (fun s =>
    with_items s (Py.set Z.eqb (self_items s) (f_start function) function)) ;;;
  fun_names <- Init.read "fun_names" attr_fun_names ;;
  match Py.get String.eqb fun_names (f_name function) with
  | None =>
      Init.modify (fun s =>
        with_fun_names s (Py.set String.eqb fun_names (f_name function) function))
  | Some existing =>
      if py_eq (PyFunctionType (f_type function)) (PyFunction existing)
      then Init.logger (LogWarning "Found two functions with the same name.")
      else if FunctionType_eqb (f_type function) NORMAL
           then Init.modify (fun s =>
                  with_fun_names s
                    (Py.set String.eqb fun_names (f_name function) function))
           else Init.ret tt
  end.

(** The two messages of the version check. *)
Definition version_suffix (exported current : string) : string :=
  String.append " The file has been generated by Quokka "
    (String.append exported (String.append " while you are using " current)).

Definition version_warning (exported current : string) : string :=
  String.append
    "The exported file has been generated by a different version of Quokka."
    (version_suffix exported current).

Definition version_debug (exported current : string) : string :=
  String.append
    "Version mismatch detected but still compatible with the exported file."
    (version_suffix exported current).

(** The version check.  The first thing it does is to look up the name
    [parse_version]. *)
Definition version_check (proto : Quokka) : Init.M unit :=
  match parse_version X with
  | None => Init.raise (NameError "name 'parse_version' is not defined")
  | Some parse =>
      proto_version <- Init.lift (parse (exporter_meta_version proto)) ;;
      current_version <- Init.lift (parse (quokka_version X)) ;;
      if negb (fst proto_version =? fst current_version)
      then Init.logger (LogWarning
             (version_warning (exporter_meta_version proto) (quokka_version X)))
      else if negb (String.eqb (exporter_meta_version proto) (quokka_version X))
           then Init.logger (LogDebug
             (version_debug (exporter_meta_version proto) (quokka_version X)))
           else Init.ret tt
  end.

Definition __init__ (export_file exec_path : string) : Init.M unit :=
  Init.modify (fun s => with_proto s Blank) ;;;
  Init.modify (fun s => with_export_file s export_file) ;;;
  proto <- Init.lift (read_export fs export_file) ;;
  Init.modify (fun s => with_proto s (Filled proto)) ;;;
  Init.modify (fun s => with_mode s (exporter_meta_mode proto)) ;;;
  version_check proto ;;;
  (if negb (check_hash fs (meta_hash proto) exec_path)
   then Init.logger (LogError "Hash does not match with file.") ;;;
        Init.raise (QuokkaError "Hash mismatch")
   else Init.ret tt) ;;;
  Init.modify (fun s => with_base_address s (meta_base_addr proto)) ;;;
  Init.modify (fun s => with_chunks s (Py.empty _ _)) ;;;
  Init.for_each (enumerate (function_chunks proto)) init_chunk ;;;
  Init.modify (fun s => with_fun_names s (Py.empty _ _)) ;;;
  Init.for_each (functions proto) init_function.

End Constructor.

(** ** A constructed Program *)

Record Program : Type := mkProgram {
  by_start : dict AddressT Function;      (* the items of the dict itself *)
  proto : Quokka;
  export_file : string;
  mode : ExporterMode;
  base_address : AddressT;
  chunks : dict Index ChunkEntry;
  fun_names : dict string Function
}.

(** The object a caller holds once [__init__] has returned. *)
Definition freeze (s : Self) : option Program :=
  match attr_proto s, attr_export_file s, attr_mode s,
        attr_base_address s, attr_chunks s, attr_fun_names s with
  | Some (Filled p), Some f, Some m, Some b, Some c, Some n =>
      Some (mkProgram (self_items s) p f m b c n)
  | _, _, _, _, _, _ => None
  end.

(** [Program(export_file, exec_path)]. *)
Definition Program_new (X : Externals) (fs : FileSystem)
           (export_file exec_path : string) : result Program :=
  match __init__ X fs export_file exec_path new_self with
  | (s, Ok _) =>
      match freeze s with
      | Some P => Ok P
      | None => Raise (AttributeError "Program")
      end
  | (_, Raise e) => Raise e
  end.

(** [Program.hash]. *)
Definition hash (P : Program) : string := hash_value (meta_hash (proto P)).

(** ** The call graph

    A [networkx.DiGraph] keeps its nodes and its edges without duplicates,
    in insertion order.  A node is any hashable Python object; the graph of
    [call_graph] receives addresses and, on the SuperChunk path, Chunk
    objects. *)
Inductive Node : Type :=
| NAddr (a : AddressT)
| NChunk (c : Chunk).

Definition Instruction_eq_dec (a b : Instruction) : {a = b} + {a <> b}.
Proof. decide equality; [apply string_dec | apply Z.eq_dec]. Defined.

Definition FunctionType_eq_dec (a b : FunctionType) : {a = b} + {a <> b}.
Proof. decide equality. Defined.

Definition Chunk_eq_dec (a b : Chunk) : {a = b} + {a <> b}.
Proof.
  decide equality;
    solve [ apply Z.eq_dec | apply Bool.bool_dec | apply FunctionType_eq_dec
          | apply (list_eq_dec Z.eq_dec)
          | apply (list_eq_dec Instruction_eq_dec) ].
Defined.

Definition Node_eq_dec (a b : Node) : {a = b} + {a <> b}.
Proof. decide equality; [apply Z.eq_dec | apply Chunk_eq_dec]. Defined.

Definition Node_eqb (a b : Node) : bool :=
  if Node_eq_dec a b then true else false.

Definition Edge_eqb (e f : Node * Node) : bool :=
  Node_eqb (fst e) (fst f) && Node_eqb (snd e) (snd f).

Module DiGraph.

Record t : Type := mk {
  nodes : list Node;
  edges : list (Node * Node)
}.

Definition empty : t := mk [] [].

Definition has_node (g : t) (n : Node) : bool := existsb (Node_eqb n) (nodes g).

Definition has_edge (g : t) (u v : Node) : bool :=
  existsb (Edge_eqb (u, v)) (edges g).

Definition add_node (g : t) (n : Node) : t :=
  if has_node g n then g else mk (nodes g ++ [n]) (edges g).

Definition add_edge (g : t) (e : Node * Node) : t :=
  let g' := add_node (add_node g (fst e)) (snd e) in
  if has_edge g' (fst e) (snd e) then g'
  else mk (nodes g') (edges g' ++ [e]).

Definition add_edges_from (g : t) (es : list (Node * Node)) : t :=
  fold_left add_edge es g.

Definition in_degree (g : t) (n : Node) : nat :=
  List.length (filter (fun e => Node_eqb (snd e) n) (edges g)).

Definition out_degree (g : t) (n : Node) : nat :=
  List.length (filter (fun e => Node_eqb (fst e) n) (edges g)).

End DiGraph.

(** [itertools.product((x,), ys)]. *)
Definition product1 {A B} (x : A) (ys : list B) : list (A * B) :=
  map (pair x) ys.

Section Queries.
Variable self : Program.

Definition call_graph_step (g : DiGraph.t) (chunk : ChunkEntry) : DiGraph.t :=
  match chunk with
  | EChunk c =>
      DiGraph.add_edges_from
        (DiGraph.add_node g (NAddr (start c)))
        (product1 (NAddr (start c)) (map NAddr (calls c)))
  | ESuperChunk sc =>
      fold_left
        (fun g small_chunk =>
           DiGraph.add_edges_from g
             (product1 (NChunk small_chunk) (map NAddr (calls small_chunk))))
        (Py.values (SuperChunkOps.starts sc)) g
  end.

Definition call_graph : DiGraph.t :=
  fold_left call_graph_step (Py.values (chunks self)) DiGraph.empty.

(** The [for chunk in self.chunks.values()] loop of [get_instruction]:
    an [IndexError] of the chunk is swallowed, anything else goes
    through. *)
Fixpoint get_instruction_loop (cs : list ChunkEntry) (address : AddressT)
  : result Instruction :=
  match cs with
  | [] => Raise (IndexError
             (String.append "No instruction at address 0x" (format_x address)))
  | chunk :: cs' =>
      if entry_in_chunk chunk address
      then match entry_get_instruction chunk address with
           | Ok i => Ok i
           | Raise (IndexError _) => get_instruction_loop cs' address
           | Raise e => Raise e
           end
      else get_instruction_loop cs' address
  end.

Definition get_instruction (address : AddressT) : result Instruction :=
  get_instruction_loop (Py.values (chunks self)) address.

(** The [for function_name, function in self.fun_names.items()] loop of
    [get_function]. *)
Fixpoint get_function_loop (its : list (string * Function))
         (name : string) (normal : bool) : result Function :=
  match its with
  | [] => Raise (ValueError "Unable to find an appropriate function")
  | (function_name, function) :: its' =>
      if str_contains name (f_name function)
         && (negb normal || FunctionType_eqb (f_type function) NORMAL)
      then match Py.get String.eqb (fun_names self) function_name with
           | Some f => Ok f
           | None => Raise (KeyError function_name)
           end
      else get_function_loop its' name normal
  end.

Definition get_function (name : string) (approximative normal : bool)
  : result Function :=
  if negb approximative
  then match Py.get String.eqb (fun_names self) name with
       | Some f => Ok f
       | None => Raise (ValueError "Missing function")
       end
  else get_function_loop (Py.items (fun_names self)) name normal.

Definition get_chunk (chunk_index : Index) (block_index : option Index)
  : result Chunk :=
  match Py.get Z.eqb (chunks self) chunk_index with
  | Some (EChunk chunk) => Ok chunk
  | Some (ESuperChunk chunk) =>
      match block_index with
      | None =>
          Raise (ChunkMissingError
            "Unable to find the chunk requested because its a super chunk")
      | Some b => SuperChunkOps.get_chunk_by_index chunk chunk_index b
      end
  | None => Raise (ChunkMissingError "Unable to find the chunk, index unknown")
  end.

(** [iter_chunk]: the chunks the generator yields, in the order it yields
    them. *)
Definition iter_chunk (chunk_types : option (list FunctionType)) : list Chunk :=
  let chunk_types :=
    match chunk_types with None => all_FunctionType | Some ts => ts end in
  flat_map
    (fun chunk =>
       match chunk with
       | ESuperChunk sc =>
           filter (fun inner_chunk => type_in (chunk_type inner_chunk) chunk_types)
                  (SuperChunkOps.values sc)
       | EChunk c =>
           if type_in (chunk_type c) chunk_types then [c] else []
       end)
    (Py.values (chunks self)).

End Queries.

(** ** [Program.from_binary]

    The exporter is a child process: what it does is an oracle of the
    world.  [subprocess.run(cmd, timeout=timeout, check=True)] follows the
    Python library: a child that outlives the timeout raises
    [TimeoutExpired], one that exits with a non-zero code raises
    [CalledProcessError], a program that cannot be started raises
    [FileNotFoundError]. *)
Inductive ProcessOutcome : Type :=
| Exited (returncode : Z) (stderr : string)
| TimedOut
| CannotStart.

Record World : Type := mkWorld {
  environ : string -> option string;
  (* command, environment, timeout, files before: outcome, files after *)
  run_process : list string -> list (string * string) -> option Z ->
                FileSystem -> ProcessOutcome * FileSystem
}.

Record CompletedProcess : Type := mkCompletedProcess {
  cp_returncode : Z;
  cp_stderr : string
}.

Definition subprocess_run (W : World) (cmd : list string)
           (env : list (string * string)) (timeout : option Z)
           (fs : FileSystem) : result CompletedProcess * FileSystem :=
  match run_process W cmd env timeout fs with
  | (Exited rc err, fs') =>
      if rc =? 0 then (Ok (mkCompletedProcess rc err), fs')
      else (Raise (CalledProcessError rc), fs')
  | (TimedOut, fs') => (Raise TimeoutExpired, fs')
  | (CannotStart, fs') => (Raise (FileNotFoundError "No such file or directory"), fs')
  end.

(** What a call of [from_binary] leaves behind: its result and the commands
    it started, in order. *)
Record Outcome : Type := mkOutcome {
  returned : result (option Program);
  spawned : list (list string)
}.

Section FromBinary.
Variable X : Externals.
Variable W : World.
Variable fs : FileSystem.

(** [parent / f"{name}{ext}"] for a path [parent/name]. *)
Definition sibling (path ext : string) : string := String.append path ext.

Definition load (output_file exec_path : string) (fs' : FileSystem)
  : result (option Program) :=
  match Program_new X fs' output_file exec_path with
  | Ok P => Ok (Some P)
  | Raise e => Raise e
  end.

Definition from_binary (exec_path : string)
           (output_file database_file : option string)
           (debug : bool) (timeout : option Z) : Outcome :=
  if negb (is_file fs exec_path)
  then mkOutcome (Raise (FileNotFoundError "Missing exec file")) []
  else
    let output_file :=
      match output_file with
      | None => sibling exec_path ".Quokka"
      | Some o => o
      end in
    if is_file fs output_file
    then mkOutcome (load output_file exec_path fs) []
    else
      let exec_file := exec_path in
      let database_file :=
        match database_file with
        | None => sibling exec_file ".i64"
        | Some d => d
        end in
      let additional_options :=
        if negb (is_file fs database_file)
        then [String.append "-o" (with_suffix_empty X database_file)]
        else [] in
      let exec_file :=
        if negb (is_file fs database_file) then exec_file else database_file in
      let ida_path :=
        match environ W "IDA_PATH" with Some p => p | None => "idat64" end in
      let cmd :=
        [ida_path; "-OQuokkaAuto:true"; String.append "-OQuokkaFile:" output_file]
          ++ additional_options ++ ["-A"; exec_file] in
      match environ W "HOME" with
      | None => mkOutcome (Raise (KeyError "HOME")) []
      | Some home =>
          let env :=
            [("TVHEADLESS", "1"); ("HOME", home);
             ("PATH", match environ W "PATH" with Some p => p | None => "" end);
             ("TERM", "xterm")] in
          match subprocess_run W cmd env timeout fs with
          | (Raise (CalledProcessError _), _) => mkOutcome (Ok None) [cmd]
          | (Raise e, _) => mkOutcome (Raise e) [cmd]
          | (Ok result, fs') =>
              if negb (is_file fs' output_file)
              then mkOutcome (Ok None) [cmd]
              else mkOutcome (load output_file exec_path fs') [cmd]
          end
      end.

End FromBinary.

(** ** Closed forms used in the statements

    What the two loops of the constructor compute, as folds over the
    records of the export; the lemmas below show the loops compute them. *)
Definition chunk_entry (X : Externals) (item : Z * ChunkProto) : Z * ChunkEntry :=
  let chunk := ChunkOps.new (fst item) (snd item) in
  (fst item, if fake chunk then split_chunk X chunk else EChunk chunk).

Definition name_step (d : dict string Function) (func : FunctionProto)
  : dict string Function :=
  let function := Function_new func in
  match Py.get String.eqb d (f_name function) with
  | None => Py.set String.eqb d (f_name function) function
  | Some existing =>
      if py_eq (PyFunctionType (f_type function)) (PyFunction existing) then d
      else if FunctionType_eqb (f_type function) NORMAL
           then Py.set String.eqb d (f_name function) function
           else d
  end.

Definition start_step (d : dict AddressT Function) (func : FunctionProto)
  : dict AddressT Function :=
  Py.set Z.eqb d (f_start (Function_new func)) (Function_new func).

(** The Program the constructor builds from an export it accepts. *)
Definition built (X : Externals) (E : Quokka) (export_file : string) : Program :=
  mkProgram (fold_left start_step (functions E) (Py.empty _ _))
            E export_file (exporter_meta_mode E) (meta_base_addr E)
            (map (chunk_entry X) (enumerate (function_chunks E)))
            (fold_left name_step (functions E) (Py.empty _ _)).

(** The entry of the name index for one name after one more function of
    that name. *)
Definition collide (o : option Function) (function : Function) : option Function :=
  match o with
  | None => Some function
  | Some existing =>
      if FunctionType_eqb (f_type function) NORMAL then Some function
      else Some existing
  end.

(** The functions of the export that carry a given name, in export order. *)
Definition named (name : string) (fps : list FunctionProto) : list Function :=
  filter (fun f => String.eqb (f_name f) name) (map Function_new fps).

(** The (chunk_index, block_index) pairs of a program: for each index of a
    raw chunk record, in ascending order, no block index on an ordinary
    Chunk and every block index of a SuperChunk, in ascending order. *)
Definition block_indices (e : ChunkEntry) : list (option Index) :=
  match e with
  | EChunk _ => [None]
  | ESuperChunk sc =>
      map (fun i => Some (Z.of_nat i)) (seq 0 (List.length (sc_chunks sc)))
  end.

Definition chunk_pairs (P : Program) : list (Index * option Index) :=
  flat_map
    (fun ci => match Py.get Z.eqb (chunks P) ci with
               | Some e => map (pair ci) (block_indices e)
               | None => []
               end)
    (map Z.of_nat (seq 0 (List.length (function_chunks (proto P))))).

Definition block_lt (a b : option Index) : Prop :=
  match a, b with
  | Some x, Some y => x < y
  | _, _ => False
  end.

Definition pair_lt (p q : Index * option Index) : Prop :=
  fst p < fst q \/ (fst p = fst q /\ block_lt (snd p) (snd q)).

(** An entry has an instruction head at an address. *)
Definition has_head (e : ChunkEntry) (address : AddressT) : bool :=
  is_ok (entry_get_instruction e address).

(** Every function sits under its own name. *)
Definition keyed_by_name (d : dict string Function) : Prop :=
  forall k f, In (k, f) d -> f_name f = k.

(** The test [get_function] makes on each function when it scans. *)
Definition matches (name : string) (normal : bool) (function : Function) : bool :=
  str_contains name (f_name function)
  && (negb normal || FunctionType_eqb (f_type function) NORMAL).

(** The exception [get_instruction] raises itself. *)
Definition no_instruction (address : AddressT) : exn :=
  IndexError (String.append "No instruction at address 0x" (format_x address)).

(** The pairs of the items of a chunk map, item by item, and the chunks
    of one entry with a SuperChunk opened up. *)
Definition pairs_of (d : dict Index ChunkEntry) : list (Index * option Index) :=
  flat_map (fun it => map (pair (fst it)) (block_indices (snd it))) d.

Definition constituents (e : ChunkEntry) : list Chunk :=
  match e with
  | EChunk c => [c]
  | ESuperChunk sc => sc_chunks sc
  end.

(** ** Concrete programs *)
Module Fixture.

(** A splitter that cuts a fake chunk at the middle of its range. *)
Definition split_in_two (c : Chunk) : ChunkEntry :=
  let mid := (start c + chunk_end c) / 2 in
  let part (lo hi : AddressT) : Chunk :=
    mkChunk (proto_index c) lo hi (chunk_type c) false
            (filter (fun a => (lo <=? a) && (a <? hi)) (calls c))
            (filter (fun i => (lo <=? inst_address i) && (inst_address i <? hi))
                    (instructions c)) in
  ESuperChunk (mkSuperChunk (proto_index c)
                            [part (start c) mid; part mid (chunk_end c)]).

(** [with_suffix("")] on a path in normal form: the suffix of a path is
    what follows the last dot of its last component, the dot included, when
    that dot is neither the first nor the last character of the component.
    [cut_suffix] reads the path backwards. *)
Fixpoint cut_suffix (r : list ascii) (seen : nat) : option (list ascii) :=
  match r with
  | [] => None
  | c :: r' =>
      if Ascii.eqb c "/"%char then None
      else if Ascii.eqb c "."%char
           then match seen, r' with
                | O, _ => None
                | S _, [] => None
                | S _, d :: _ => if Ascii.eqb d "/"%char then None else Some r'
                end
           else cut_suffix r' (S seen)
  end.

Definition drop_suffix (p : string) : string :=
  match cut_suffix (rev (list_ascii_of_string p)) 0 with
  | Some r => string_of_list_ascii (rev r)
  | None => p
  end.

(** A module namespace in which [parse_version] is bound. *)
Definition X0 : Externals :=
  mkExternals "0.5.5" (Some (fun _ => Ok (0, [5; 5]))) split_in_two drop_suffix.

Definition sha : HashProto := mkHashProto HASH_SHA256 "c0ffee".

Definition export_of (cs : list ChunkProto) (fps : list FunctionProto) : Quokka :=
  mkQuokka MODE_LIGHT "0.5.5" 0 sha 0 64 0 "a.out" cs fps.

(** A directory holding the executable [a.out], whose digest is [digest],
    and the export [a.out.Quokka] with content [E]. *)
Definition fs_with (E : Quokka) (digest : string) : FileSystem :=
  mkFileSystem
    (fun p => String.eqb p "a.out" || String.eqb p "a.out.Quokka")
    (fun p => if String.eqb p "a.out.Quokka" then Ok E
              else Raise (FileNotFoundError p))
    (fun _ _ => digest).

(** The same directory before any export was made. *)
Definition fs_bare : FileSystem :=
  mkFileSystem (fun p => String.eqb p "a.out")
               (fun p => Raise (FileNotFoundError p))
               (fun _ _ => "c0ffee").

Definition home_only : string -> option string :=
  fun v => if String.eqb v "HOME" then Some "/root" else None.

(** An exporter that never finishes in time. *)
Definition W_timeout : World :=
  mkWorld home_only (fun _ _ _ fs => (TimedOut, fs)).

(** An exporter that exits with code 1. *)
Definition W_fails : World :=
  mkWorld home_only (fun _ _ _ fs => (Exited 1 "error", fs)).

(** An exporter that exits with code 0 and writes nothing. *)
Definition W_silent : World :=
  mkWorld home_only (fun _ _ _ fs => (Exited 0 "", fs)).

Definition ins (a : AddressT) : Instruction := mkInstruction a "nop".

(* Two NORMAL functions called f. *)
Definition f_first : FunctionProto := mkFunctionProto 4096 "f" NORMAL [0].
Definition f_second : FunctionProto := mkFunctionProto 8192 "f" NORMAL [1].
Definition E_same_type : Quokka := export_of [] [f_first; f_second].

(* helper, once NORMAL and once THUNK, and another function. *)
Definition helper_normal : FunctionProto := mkFunctionProto 4096 "helper" NORMAL [0].
Definition helper_thunk : FunctionProto := mkFunctionProto 8192 "helper" THUNK [1].
Definition foobar : FunctionProto := mkFunctionProto 12288 "foobar" LIBRARY [2].
Definition E_helper : Quokka :=
  export_of [] [helper_thunk; foobar; helper_normal].

(* Chunks A and B calling one another; C calling an address of no chunk. *)
Definition cA : ChunkProto := mkChunkProto 4096 4112 NORMAL false [8192] [ins 4096; ins 4100].
Definition cB : ChunkProto := mkChunkProto 8192 8208 NORMAL false [4096] [ins 8192].
Definition cC : ChunkProto := mkChunkProto 12288 12304 NORMAL false [65536] [ins 12288].
(* A fake chunk, split at 20488, whose first half calls A. *)
Definition cFake : ChunkProto :=
  mkChunkProto 20480 20496 NORMAL true [20484] [ins 20480; ins 20488].

Definition E_cycle : Quokka := export_of [cA; cB] [].
Definition E_sink : Quokka := export_of [cC] [].
Definition E_super : Quokka := export_of [cFake] [].
Definition E_mixed : Quokka := export_of [cA; cFake; cB] [helper_normal].

Definition program_of (E : Quokka) : Program :=
  match Program_new X0 (fs_with E "c0ffee") "a.out.Quokka" "a.out" with
  | Ok P => P
  | Raise _ => mkProgram [] E "" MODE_LIGHT 0 [] []
  end.

End Fixture.

(** ** Segments

    Modelled from the spec: [quokka.Segment] is not part of the source
    file.  A Segment is an address range with a name; the docstring of
    [get_segment] fixes the test of [in_segment]: the address must be in
    [[segment.start, segment.end)]. *)
Record Segment : Type := mkSegment {
  seg_name : string;
  seg_start : AddressT;
  seg_end : AddressT
}.

Definition in_segment (s : Segment) (address : AddressT) : bool :=
  (seg_start s <=? address) && (address <? seg_end s).

(** [f"{address}"]: decimal digits, with a sign for negatives. *)
Definition format_d (a : Z) : string :=
  DecimalString.NilZero.string_of_int (Z.to_int a).

(** The message of [get_segment]: the address is formatted without [:x],
    so decimal digits follow the [0x]. *)
Definition no_segment (address : AddressT) : exn :=
  KeyError (String.append "No segment has been found for address 0x"
                          (format_d address)).

(** [get_segment], on the list [self.segments] holds. *)
Fixpoint get_segment (segments : list Segment) (address : AddressT)
  : result Segment :=
  match segments with
  | [] => Raise (no_segment address)
  | segment :: segments' =>
      if in_segment segment address then Ok segment
      else get_segment segments' address
  end.

(** ** Functions by chunk *)

(** [d[k].append(f)] on a [collections.defaultdict(list)]. *)
Definition defaultdict_append (d : dict Index (list Function)) (k : Index)
           (f : Function) : dict Index (list Function) :=
  match Py.get Z.eqb d k with
  | Some l => Py.set Z.eqb d k (l ++ [f])
  | None => Py.set Z.eqb d k ([] ++ [f])
  end.

(** [d[k]] on a [collections.defaultdict(list)]: a missing key is inserted
    with the empty list. *)
Definition defaultdict_getitem (d : dict Index (list Function)) (k : Index)
  : list Function * dict Index (list Function) :=
  match Py.get Z.eqb d k with
  | Some l => (l, d)
  | None => ([], Py.set Z.eqb d k [])
  end.

(** The value [func_chunk_index] computes on its first access. *)
Definition func_chunk_index (self : Program) : dict Index (list Function) :=
  fold_left
    (fun d function =>
       fold_left (fun d chunk_proto_index =>
                    defaultdict_append d chunk_proto_index function)
                 (index_to_address function) d)
    (Py.values (by_start self))
    (Py.empty Index (list Function)).

(** [get_function_by_chunk], on the cached index: the result and the index
    as the lookup leaves it. *)
Definition get_function_by_chunk (index : dict Index (list Function))
           (chunk : Chunk)
  : result (list Function) * dict Index (list Function) :=
  let (functions, index') := defaultdict_getitem index (proto_index chunk) in
  match functions with
  | [] =>
      (Raise (IndexError
         "No function has been found for the chunk. This is probably a Quokka bug and should be reported."),
       index')
  | _ :: _ => (Ok functions, index')
  end.

Definition get_first_function_by_chunk (index : dict Index (list Function))
           (chunk : Chunk)
  : result Function * dict Index (list Function) :=
  match get_function_by_chunk index chunk with
  | (Ok functions, index') =>
      match functions with
      | f :: _ => (Ok f, index')
      | [] => (Raise (FunctionMissingError "Missing function from chunk"), index')
      end
  | (Raise (IndexError _), index') =>
      (Raise (FunctionMissingError "Missing function from chunk"), index')
  | (Raise e, index') => (Raise e, index')
  end.

(** The functions that reference a chunk index, in the order the Program
    iterates over its functions, once per reference. *)
Definition owners (self : Program) (k : Index) : list Function :=
  flat_map (fun f => map (fun _ => f) (filter (Z.eqb k) (index_to_address f)))
           (Py.values (by_start self)).

(** An index entry after more appends. *)
Definition extend (o : option (list Function)) (l : list Function)
  : option (list Function) :=
  match l with
  | [] => o
  | _ :: _ => Some (match o with Some l0 => l0 | None => [] end ++ l)
  end.

(** What the version check does: the exception it raises, or the records
    it sends to the logger. *)
Definition version_outcome (X : Externals) (E : Quokka)
  : result (list LogRecord) :=
  match parse_version X with
  | None => Raise (NameError "name 'parse_version' is not defined")
  | Some parse =>
      match parse (exporter_meta_version E) with
      | Raise e => Raise e
      | Ok proto_version =>
          match parse (quokka_version X) with
          | Raise e => Raise e
          | Ok current_version =>
              Ok (if negb (fst proto_version =? fst current_version)
                  then [LogWarning (version_warning (exporter_meta_version E)
                                                    (quokka_version X))]
                  else if negb (String.eqb (exporter_meta_version E)
                                           (quokka_version X))
                       then [LogDebug (version_debug (exporter_meta_version E)
                                                     (quokka_version X))]
                       else [])
          end
      end
  end.

(** A chunk of an entry covers an address; a chunk of an entry has an
    instruction whose head is at an address. *)
Definition covers (e : ChunkEntry) (address : AddressT) : Prop :=
  exists c, In c (constituents e) /\ start c <= address < chunk_end c.

Definition heads (e : ChunkEntry) (address : AddressT) : Prop :=
  exists c i, In c (constituents e) /\ In i (instructions c)
              /\ inst_address i = address.


(** ** More concrete programs *)
Module Sample.

(** An exporter that writes the export of [E] next to the executable. *)
Definition W_exports (E : Quokka) : World :=
  mkWorld Fixture.home_only
          (fun _ _ _ _ => (Exited 0 "", Fixture.fs_with E "c0ffee")).

(** No HOME in the environment. *)
Definition W_homeless : World :=
  mkWorld (fun _ => None) (fun _ _ _ fs => (Exited 0 "", fs)).

(** A directory that also holds the database [a.out.i64]. *)
Definition fs_database : FileSystem :=
  mkFileSystem (fun p => String.eqb p "a.out" || String.eqb p "a.out.i64")
               (fun p => Raise (FileNotFoundError p))
               (fun _ _ => "c0ffee").

(** A directory where the export is not readable as an export. *)
Definition fs_garbled : FileSystem :=
  mkFileSystem (fun p => String.eqb p "a.out" || String.eqb p "a.out.Quokka")
               (fun p => Raise (DecodeError "Error parsing message"))
               (fun _ _ => "c0ffee").

(** A library that is one major version ahead of the exports. *)
Definition X_newer : Externals :=
  mkExternals "1.0.0"
              (Some (fun v => if String.eqb v "1.0.0" then Ok (1, [0; 0])
                              else Ok (0, [5; 5])))
              Fixture.split_in_two Fixture.drop_suffix.

(** The same library with a different patch level. *)
Definition X_patched : Externals :=
  mkExternals "0.5.6" (Some (fun _ => Ok (0, [5; 5])))
              Fixture.split_in_two Fixture.drop_suffix.

(** The module namespace of [program.py] as the file is written:
    [parse_version] is not bound. *)
Definition X_as_written : Externals :=
  mkExternals "0.5.5" None Fixture.split_in_two Fixture.drop_suffix.

(* Two functions at the same start address. *)
Definition g_first : FunctionProto := mkFunctionProto 4096 "g" THUNK [0].
Definition g_second : FunctionProto := mkFunctionProto 4096 "h" NORMAL [0; 2].
Definition g_other : FunctionProto := mkFunctionProto 8192 "k" LIBRARY [2].
Definition E_same_start : Quokka :=
  Fixture.export_of [Fixture.cA; Fixture.cFake; Fixture.cB]
                    [g_first; g_other; g_second].

(* Three functions of one name: THUNK, NORMAL, LIBRARY. *)
Definition n_thunk : FunctionProto := mkFunctionProto 4096 "n" THUNK [0].
Definition n_normal : FunctionProto := mkFunctionProto 8192 "n" NORMAL [1].
Definition n_library : FunctionProto := mkFunctionProto 12288 "n" LIBRARY [2].
Definition E_three : Quokka :=
  Fixture.export_of [] [n_thunk; n_normal; n_library].

(* Two overlapping chunks: the first has no head at 8196, the second has. *)
Definition cWide : ChunkProto :=
  mkChunkProto 8192 8208 NORMAL false [] [Fixture.ins 8192].
Definition cNarrow : ChunkProto :=
  mkChunkProto 8196 8200 THUNK false [8196] [Fixture.ins 8196].
Definition E_overlap : Quokka := Fixture.export_of [cWide; cNarrow] [].

Definition text : Segment := mkSegment ".text" 4096 8192.
Definition data : Segment := mkSegment ".data" 8192 12288.
Definition overlay : Segment := mkSegment ".overlay" 8000 9000.

End Sample.

(** * Properties *)

(** ** Dictionaries *)
Section DictFacts.
Variables K V : Type.
Variable eqb : K -> K -> bool.
Hypothesis eqb_eq : forall a b, eqb a b = true <-> a = b.

Let get := @Py.get K V eqb.
Let set := @Py.set K V eqb.

Lemma eqb_refl_true k : eqb k k = true.
Proof. now apply eqb_eq. Qed.

Lemma eqb_neq_false a b : a <> b -> eqb a b = false.
Proof.
  intros Hne. destruct (eqb a b) eqn:E; [|reflexivity].
  apply eqb_eq in E. contradiction.
Qed.

Lemma get_set_same (d : dict K V) k v : get (set d k v) k = Some v.
Proof.
  induction d as [|[k' v'] d IH]; simpl.
  - now rewrite eqb_refl_true.
  - destruct (eqb k' k) eqn:E; simpl; rewrite E; auto.
Qed.

Lemma get_set_other (d : dict K V) k k' v :
  k <> k' -> get (set d k v) k' = get d k'.
Proof.
  intros Hne. induction d as [|[k0 v0] d IH]; simpl.
  - now rewrite (eqb_neq_false Hne).
  - destruct (eqb k0 k) eqn:E; simpl.
    + apply eqb_eq in E. subst k0. now rewrite (eqb_neq_false Hne).
    + now rewrite IH.
Qed.

Lemma get_none_not_key (d : dict K V) k :
  get d k = None <-> ~ In k (Py.keys d).
Proof.
  induction d as [|[k0 v0] d IH]; simpl.
  - tauto.
  - destruct (eqb k0 k) eqn:E.
    + apply eqb_eq in E. split; [discriminate | intros H; exfalso; auto].
    + rewrite IH. split.
      * intros H [H1|H1]; [|auto]. subst. rewrite eqb_refl_true in E. discriminate.
      * tauto.
Qed.

Lemma set_absent (d : dict K V) k v :
  get d k = None -> set d k v = d ++ [(k, v)].
Proof.
  induction d as [|[k0 v0] d IH]; simpl; [reflexivity|].
  destruct (eqb k0 k); [discriminate|]. intros H. now rewrite IH.
Qed.

Lemma keys_set_present (d : dict K V) k v :
  get d k <> None -> Py.keys (set d k v) = Py.keys d.
Proof.
  induction d as [|[k0 v0] d IH]; simpl; [congruence|].
  destruct (eqb k0 k) eqn:E; simpl; [reflexivity|].
  intros H. f_equal. now apply IH.
Qed.

Lemma NoDup_keys_set (d : dict K V) k v :
  NoDup (Py.keys d) -> NoDup (Py.keys (set d k v)).
Proof.
  intros Hd. destruct (get d k) eqn:G.
  - rewrite keys_set_present; [assumption | rewrite G; discriminate].
  - rewrite (@set_absent d k v G). unfold Py.keys. rewrite map_app. simpl.
    apply NoDup_app; [assumption | repeat constructor; simpl; tauto |].
    intros x Hx [Hk|[]]. subst x. apply get_none_not_key in G. contradiction.
Qed.

(** In a dictionary, the item met first under a key is the one [get]
    returns. *)
Lemma get_at_split (pre post : dict K V) k v :
  ~ In k (Py.keys pre) -> get (pre ++ (k, v) :: post) k = Some v.
Proof.
  induction pre as [|[k0 v0] pre IH]; simpl; intros Hn.
  - now rewrite eqb_refl_true.
  - rewrite eqb_neq_false by tauto. apply IH. tauto.
Qed.

End DictFacts.

Lemma string_eqb_eq (a b : string) : String.eqb a b = true <-> a = b.
Proof. apply String.eqb_eq. Qed.

Lemma z_eqb_eq (a b : Z) : Z.eqb a b = true <-> a = b.
Proof. apply Z.eqb_eq. Qed.

(** ** The constructor *)
Section ConstructorFacts.
Variable X : Externals.

Lemma version_check_outcome (E : Quokka) i p e m b c n l :
  version_check X E (mkSelf i p e m b c n l)
  = match version_outcome X E with
    | Ok records => (mkSelf i p e m b c n (l ++ records), Ok tt)
    | Raise x => (mkSelf i p e m b c n l, Raise x)
    end.
Proof.
  unfold version_check, version_outcome.
  destruct (parse_version X) as [parse|]; [|reflexivity].
  unfold Init.bind, Init.lift.
  destruct (parse (exporter_meta_version E)) as [pv|x]; [|reflexivity].
  destruct (parse (quokka_version X)) as [cv|x]; [|reflexivity].
  destruct (negb (_ =? _)); [reflexivity|].
  destruct (negb (String.eqb _ _)); [reflexivity|].
  unfold Init.ret. now rewrite app_nil_r.
Qed.

Lemma for_each_chunks (its : list (Z * ChunkProto)) :
  forall i p e m b d n l,
    Init.for_each its (init_chunk X) (mkSelf i p e m b (Some d) n l)
    = (mkSelf i p e m b
              (Some (fold_left
                       (fun d it => Py.set Z.eqb d (fst it) (snd (chunk_entry X it)))
                       its d))
              n l, Ok tt).
Proof.
  induction its as [|[ci cp] its IH]; intros; simpl; [reflexivity|].
  unfold Init.bind at 1. unfold init_chunk at 1.
  unfold Init.bind, Init.read, Init.modify. simpl.
  unfold with_chunks. simpl. rewrite IH. reflexivity.
Qed.

Lemma for_each_functions (fps : list FunctionProto) :
  forall i p e m b c d l,
    Init.for_each fps init_function (mkSelf i p e m b c (Some d) l)
    = (mkSelf (fold_left start_step fps i) p e m b c
              (Some (fold_left name_step fps d)) l, Ok tt).
Proof.
  induction fps as [|fp fps IH]; intros; simpl; [reflexivity|].
  unfold Init.bind at 1. unfold init_function at 1.
  unfold Init.bind, Init.read, Init.modify. simpl.
  unfold name_step at 2. simpl.
  destruct (Py.get String.eqb d (fp_name fp)) eqn:G; simpl.
  - destruct (FunctionType_eqb (fp_type fp) NORMAL); simpl;
      unfold with_fun_names, with_items, Init.ret; simpl; now rewrite IH.
  - unfold with_fun_names, with_items; simpl. now rewrite IH.
Qed.

(** Keys below [i] are untouched by what the loop inserts from [i] on,
    so the chunk map is the enumeration of the raw records. *)
Lemma chunk_map_enumerate (cps : list ChunkProto) :
  forall i (d : dict Index ChunkEntry),
    (forall k, In k (Py.keys d) -> k < i) ->
    fold_left (fun d it => Py.set Z.eqb d (fst it) (snd (chunk_entry X it)))
              (enumerate_from i cps) d
    = d ++ map (chunk_entry X) (enumerate_from i cps).
Proof.
  induction cps as [|cp cps IH]; intros i d Hd; simpl.
  - now rewrite app_nil_r.
  - rewrite (set_absent Z.eqb d i).
    + rewrite IH.
      * rewrite <- app_assoc. reflexivity.
      * intros k Hk. unfold Py.keys in Hk. rewrite map_app in Hk.
        apply in_app_or in Hk. destruct Hk as [Hk|[Hk|[]]].
        -- apply Hd in Hk. lia.
        -- simpl in Hk. lia.
    + apply (proj2 (get_none_not_key Z.eqb z_eqb_eq d i)).
      intros Hk. apply Hd in Hk. lia.
Qed.

Variable fs : FileSystem.

(** What the constructor does with an export it could read: it stops at the
    version check when that raises, at the hash check when the digest
    differs, and runs to its end otherwise. *)
Lemma init_cases (ef ep : string) (E : Quokka) :
  read_export fs ef = Ok E ->
  __init__ X fs ef ep new_self
  = match version_outcome X E with
    | Raise x =>
        (mkSelf (Py.empty _ _) (Some (Filled E)) (Some ef)
                (Some (exporter_meta_mode E)) None None None [], Raise x)
    | Ok records =>
        if check_hash fs (meta_hash E) ep
        then (mkSelf (by_start (built X E ef)) (Some (Filled E)) (Some ef)
                     (Some (exporter_meta_mode E)) (Some (meta_base_addr E))
                     (Some (chunks (built X E ef)))
                     (Some (fun_names (built X E ef))) records,
              Ok tt)
        else (mkSelf (Py.empty _ _) (Some (Filled E)) (Some ef)
                     (Some (exporter_meta_mode E)) None None None
                     (records ++ [LogError "Hash does not match with file."]),
              Raise (QuokkaError "Hash mismatch"))
    end.
Proof.
  intros Hread. unfold __init__.
  unfold Init.bind at 1. unfold Init.modify at 1.
  unfold Init.bind at 1. unfold Init.modify at 1.
  unfold Init.bind at 1. unfold Init.lift. rewrite Hread.
  unfold Init.bind at 1. unfold Init.modify at 1.
  unfold Init.bind at 1. unfold Init.modify at 1.
  unfold Init.bind at 1.
  unfold with_mode, with_proto, with_export_file, new_self. simpl.
  rewrite version_check_outcome.
  destruct (version_outcome X E) as [records|x]; [|reflexivity].
  simpl. unfold Init.bind at 1.
  destruct (check_hash fs (meta_hash E) ep); simpl.
  - unfold Init.bind at 1. unfold Init.modify at 1.
    unfold Init.bind at 1. unfold Init.modify at 1.
    unfold Init.bind at 1.
    unfold with_chunks, with_base_address. simpl.
    rewrite for_each_chunks.
    unfold Init.bind at 1. unfold Init.modify at 1.
    unfold with_fun_names. simpl.
    rewrite for_each_functions.
    do 3 f_equal.
    exact (@chunk_map_enumerate (function_chunks E) 0 []
             (fun k H => match H with end)).
  - reflexivity.
Qed.

Lemma init_hash_mismatch (ef ep : string) (E : Quokka)
      (records : list LogRecord) :
  read_export fs ef = Ok E ->
  version_outcome X E = Ok records ->
  check_hash fs (meta_hash E) ep = false ->
  __init__ X fs ef ep new_self
  = (mkSelf (Py.empty _ _) (Some (Filled E)) (Some ef)
            (Some (exporter_meta_mode E)) None None None
            (records ++ [LogError "Hash does not match with file."]),
     Raise (QuokkaError "Hash mismatch")).
Proof.
  intros Hread Hv Hhash. rewrite (init_cases ef ep Hread), Hv, Hhash.
  reflexivity.
Qed.

Lemma init_ok (ef ep : string) (E : Quokka) (records : list LogRecord) :
  read_export fs ef = Ok E ->
  version_outcome X E = Ok records ->
  check_hash fs (meta_hash E) ep = true ->
  __init__ X fs ef ep new_self
  = (mkSelf (by_start (built X E ef)) (Some (Filled E)) (Some ef)
            (Some (exporter_meta_mode E)) (Some (meta_base_addr E))
            (Some (chunks (built X E ef)))
            (Some (fun_names (built X E ef))) records,
     Ok tt).
Proof.
  intros Hread Hv Hhash. rewrite (init_cases ef ep Hread), Hv, Hhash.
  reflexivity.
Qed.

Lemma Program_new_ok (ef ep : string) (E : Quokka) (records : list LogRecord) :
  read_export fs ef = Ok E ->
  version_outcome X E = Ok records ->
  check_hash fs (meta_hash E) ep = true ->
  Program_new X fs ef ep = Ok (built X E ef).
Proof.
  intros Hread Hv Hhash. unfold Program_new.
  rewrite (init_ok ef ep Hread Hv Hhash). reflexivity.
Qed.

Lemma Program_new_raises_read (ef ep : string) (e : exn) :
  read_export fs ef = Raise e -> Program_new X fs ef ep = Raise e.
Proof.
  intros Hread. unfold Program_new, __init__.
  unfold Init.bind at 1. unfold Init.modify at 1.
  unfold Init.bind at 1. unfold Init.modify at 1.
  unfold Init.bind at 1. unfold Init.lift. rewrite Hread. reflexivity.
Qed.

Lemma Program_new_inv (ef ep : string) (P : Program) :
  Program_new X fs ef ep = Ok P ->
  exists E,
    read_export fs ef = Ok E
    /\ check_hash fs (meta_hash E) ep = true
    /\ P = built X E ef.
Proof.
  intros H. destruct (read_export fs ef) as [E|e] eqn:Hread.
  - unfold Program_new in H. rewrite (init_cases ef ep Hread) in H.
    destruct (version_outcome X E) as [records|x]; [|discriminate].
    destruct (check_hash fs (meta_hash E) ep) eqn:Hhash; [|discriminate].
    simpl in H. injection H as <-. exists E. auto.
  - rewrite (Program_new_raises_read ef ep Hread) in H. discriminate.
Qed.

(** A constructed Program tells that the version check went through. *)
Lemma Program_new_version (ef ep : string) (P : Program) :
  Program_new X fs ef ep = Ok P ->
  exists E records,
    read_export fs ef = Ok E /\ version_outcome X E = Ok records.
Proof.
  intros H. destruct (read_export fs ef) as [E|e] eqn:Hread.
  - unfold Program_new in H. rewrite (init_cases ef ep Hread) in H.
    destruct (version_outcome X E) as [records|x] eqn:Hv; [|discriminate].
    exists E, records. auto.
  - rewrite (Program_new_raises_read ef ep Hread) in H. discriminate.
Qed.

End ConstructorFacts.

(** ** The name index *)

(** The comparison the constructor makes on a collision is between a
    function type and a Function object: it never holds. *)
Lemma py_eq_type_function (t : FunctionType) (f : Function) :
  py_eq (PyFunctionType t) (PyFunction f) = false.
Proof. reflexivity. Qed.

Lemma name_step_get (d : dict string Function) (fp : FunctionProto) (k : string) :
  Py.get String.eqb (name_step d fp) k
  = if String.eqb (fp_name fp) k
    then collide (Py.get String.eqb d k) (Function_new fp)
    else Py.get String.eqb d k.
Proof.
  unfold name_step. simpl.
  destruct (String.eqb (fp_name fp) k) eqn:E.
  - apply String.eqb_eq in E. subst k.
    destruct (Py.get String.eqb d (fp_name fp)) eqn:G; simpl.
    + destruct (FunctionType_eqb (fp_type fp) NORMAL); simpl.
      * apply (get_set_same String.eqb string_eqb_eq).
      * assumption.
    + apply (get_set_same String.eqb string_eqb_eq).
  - apply String.eqb_neq in E.
    destruct (Py.get String.eqb d (fp_name fp)) eqn:G; simpl.
    + destruct (FunctionType_eqb (fp_type fp) NORMAL); simpl.
      * now apply (get_set_other String.eqb string_eqb_eq).
      * reflexivity.
    + now apply (get_set_other String.eqb string_eqb_eq).
Qed.

(** The entry of a name depends only on the functions carrying that name,
    taken in export order. *)
Lemma name_index_get (fps : list FunctionProto) :
  forall (d : dict string Function) (k : string),
    Py.get String.eqb (fold_left name_step fps d) k
    = fold_left collide (named k fps) (Py.get String.eqb d k).
Proof.
  induction fps as [|fp fps IH]; intros d k; simpl; [reflexivity|].
  rewrite IH, name_step_get. unfold named. simpl.
  destruct (String.eqb (fp_name fp) k); reflexivity.
Qed.

Lemma name_step_NoDup (d : dict string Function) (fp : FunctionProto) :
  NoDup (Py.keys d) -> NoDup (Py.keys (name_step d fp)).
Proof.
  intros Hd. unfold name_step. simpl.
  destruct (Py.get String.eqb d (fp_name fp)); simpl.
  - destruct (FunctionType_eqb (fp_type fp) NORMAL); [|assumption].
    now apply (NoDup_keys_set String.eqb string_eqb_eq).
  - now apply (NoDup_keys_set String.eqb string_eqb_eq).
Qed.

Lemma name_index_NoDup (fps : list FunctionProto) :
  forall d, NoDup (Py.keys d) -> NoDup (Py.keys (fold_left name_step fps d)).
Proof.
  induction fps as [|fp fps IH]; intros d Hd; simpl; [assumption|].
  apply IH. now apply name_step_NoDup.
Qed.

Lemma set_keyed_by_name (d : dict string Function) (f : Function) :
  keyed_by_name d -> keyed_by_name (Py.set String.eqb d (f_name f) f).
Proof.
  induction d as [|[k0 f0] d IH]; intros Hd k g; simpl.
  - intros [H|[]]. now inversion H.
  - destruct (String.eqb k0 (f_name f)) eqn:E; simpl.
    + apply String.eqb_eq in E. intros [H|H].
      * inversion H. subst. reflexivity.
      * apply Hd. now right.
    + intros [H|H].
      * apply Hd. now left.
      * apply IH; [|assumption]. intros k' f' H'. apply Hd. now right.
Qed.

Lemma name_index_keyed (fps : list FunctionProto) :
  forall d, keyed_by_name d -> keyed_by_name (fold_left name_step fps d).
Proof.
  induction fps as [|fp fps IH]; intros d Hd; simpl; [assumption|].
  apply IH. unfold name_step. simpl.
  destruct (Py.get String.eqb d (fp_name fp)); simpl.
  - destruct (FunctionType_eqb (fp_type fp) NORMAL); [|assumption].
    apply (set_keyed_by_name (Function_new fp) Hd).
  - apply (set_keyed_by_name (Function_new fp) Hd).
Qed.

(** C1, the code at the failing input.  An export declares two functions
    named f, both NORMAL.  Construction succeeds, and the name index then
    holds the function inserted second: the first one was replaced although
    both have the same type. *)
Theorem C1_same_type_collision_replaces_first :
  exists P,
    Program_new Fixture.X0 (Fixture.fs_with Fixture.E_same_type "c0ffee")
                "a.out.Quokka" "a.out" = Ok P
    /\ Py.get String.eqb (fun_names P) "f" = Some (Function_new Fixture.f_second)
    /\ f_type (Function_new Fixture.f_first) = f_type (Function_new Fixture.f_second)
    /\ Function_new Fixture.f_first <> Function_new Fixture.f_second.
Proof.
  eexists. split; [vm_compute; reflexivity|].
  split; [reflexivity|]. split; [reflexivity|]. discriminate.
Qed.

(** What holds of every collision: a NORMAL newcomer always takes the entry,
    whatever the type of the function already there, and any other newcomer
    leaves it alone. *)
Lemma collide_existing (existing function : Function) :
  collide (Some existing) function
  = if FunctionType_eqb (f_type function) NORMAL then Some function
    else Some existing.
Proof. reflexivity. Qed.

(** Construction never fails on a collision: once the export is read and
    its hash accepted, the constructor returns, whatever the names are. *)
Lemma construction_total_on_names (X : Externals) (fs : FileSystem)
      (ef ep : string) (E : Quokka) (records : list LogRecord) :
  read_export fs ef = Ok E ->
  version_outcome X E = Ok records ->
  check_hash fs (meta_hash E) ep = true ->
  exists P, Program_new X fs ef ep = Ok P /\ NoDup (Py.keys (fun_names P)).
Proof.
  intros Hr Hv Hh. exists (built X E ef). split.
  - exact (Program_new_ok X fs ef ep Hr Hv Hh).
  - simpl. apply name_index_NoDup. constructor.
Qed.

(** C5.  When exactly two functions of the export are named helper, one
    NORMAL and one THUNK, an exact lookup of helper returns the NORMAL one,
    in whichever order the export declares them. *)
Theorem C5_helper_normal_wins (X : Externals) (fs : FileSystem)
        (ef ep : string) (P : Program) (n t : Function) (normal : bool) :
  Program_new X fs ef ep = Ok P ->
  f_type n = NORMAL ->
  f_type t = THUNK ->
  named "helper" (functions (proto P)) = [n; t]
  \/ named "helper" (functions (proto P)) = [t; n] ->
  get_function P "helper" false normal = Ok n.
Proof.
  intros HP Hn Ht Hnamed.
  apply Program_new_inv in HP. destruct HP as (E & _ & _ & ->).
  unfold get_function. simpl. simpl in Hnamed.
  rewrite name_index_get.
  destruct Hnamed as [-> | ->]; simpl; rewrite ?Hn, ?Ht; reflexivity.
Qed.

Lemma C5_helper_normal_wins_witness :
  get_function (Fixture.program_of Fixture.E_helper) "helper" false false
  = Ok (Function_new Fixture.helper_normal).
Proof.
  apply (@C5_helper_normal_wins Fixture.X0
           (Fixture.fs_with Fixture.E_helper "c0ffee") "a.out.Quokka" "a.out"
           (Fixture.program_of Fixture.E_helper)
           (Function_new Fixture.helper_normal)
           (Function_new Fixture.helper_thunk) false).
  - reflexivity.
  - reflexivity.
  - reflexivity.
  - right. reflexivity.
Defined.

(** ** Lookup by name *)

Lemma get_function_loop_first (P : Program) (name : string) (normal : bool) :
  forall (pre post : list (string * Function)) (k : string) (f : Function),
    (forall k' f', In (k', f') pre -> matches name normal f' = false) ->
    matches name normal f = true ->
    get_function_loop P (pre ++ (k, f) :: post) name normal
    = match Py.get String.eqb (fun_names P) k with
      | Some g => Ok g
      | None => Raise (KeyError k)
      end.
Proof.
  induction pre as [|[k0 f0] pre IH]; intros post k f Hpre Hf; simpl.
  - unfold matches in Hf. rewrite Hf. reflexivity.
  - pose proof (Hpre k0 f0 (or_introl eq_refl)) as H0.
    unfold matches in H0. rewrite H0.
    apply IH; [|assumption]. intros k' f' H'. apply (Hpre k' f'). now right.
Qed.

Lemma get_function_loop_none (P : Program) (name : string) (normal : bool) :
  forall its : list (string * Function),
    (forall k f, In (k, f) its -> matches name normal f = false) ->
    get_function_loop P its name normal
    = Raise (ValueError "Unable to find an appropriate function").
Proof.
  induction its as [|[k0 f0] its IH]; intros Hall; simpl; [reflexivity|].
  pose proof (Hall k0 f0 (or_introl eq_refl)) as H0.
  unfold matches in H0. rewrite H0.
  apply IH. intros k f H. apply (Hall k f). now right.
Qed.

Lemma named_nil (name : string) (fps : list FunctionProto) :
  (forall fp, In fp fps -> fp_name fp <> name) -> named name fps = [].
Proof.
  induction fps as [|fp fps IH]; intros H; [reflexivity|].
  unfold named. simpl.
  destruct (String.eqb (fp_name fp) name) eqn:E.
  - apply String.eqb_eq in E. exfalso. apply (H fp); [now left | assumption].
  - apply IH. intros fp' H'. apply H. now right.
Qed.

(** C8.  An exact lookup of a name that no function of the export carries
    raises ValueError (the spec's NotFoundError), whatever longer names
    contain it.  An approximate lookup scans the name index in iteration
    order, tests each function's name for the substring together with the
    NORMAL-only filter, and returns the first function that passes; when
    none passes it raises ValueError.  The name index holds each function
    under its own name. *)
Theorem C8_get_function_lookup (X : Externals) (fs : FileSystem)
        (ef ep : string) (P : Program) :
  Program_new X fs ef ep = Ok P ->
  (forall name normal,
      (forall fp, In fp (functions (proto P)) -> fp_name fp <> name) ->
      get_function P name false normal = Raise (ValueError "Missing function"))
  /\ (forall name normal pre k f post,
         Py.items (fun_names P) = pre ++ (k, f) :: post ->
         (forall k' f', In (k', f') pre -> matches name normal f' = false) ->
         matches name normal f = true ->
         get_function P name true normal = Ok f)
  /\ (forall name normal,
         (forall k f, In (k, f) (Py.items (fun_names P)) ->
                      matches name normal f = false) ->
         get_function P name true normal
         = Raise (ValueError "Unable to find an appropriate function"))
  /\ keyed_by_name (fun_names P).
Proof.
  intros HP. apply Program_new_inv in HP. destruct HP as (E & _ & _ & ->).
  repeat split.
  - intros name normal Hno. unfold get_function. simpl.
    rewrite name_index_get, (@named_nil name (functions E) Hno). reflexivity.
  - intros name normal pre k f post Hits Hpre Hf.
    unfold get_function. simpl negb. cbv iota.
    rewrite Hits, (get_function_loop_first _ name normal pre post k f Hpre Hf).
    unfold Py.items in Hits. rewrite Hits.
    rewrite (get_at_split String.eqb string_eqb_eq); [reflexivity|].
    assert (Hnd : NoDup (Py.keys (fun_names (built X E ef)))).
    { simpl. apply name_index_NoDup. constructor. }
    rewrite Hits in Hnd. unfold Py.keys in Hnd. rewrite map_app in Hnd.
    simpl in Hnd. apply NoDup_remove_2 in Hnd.
    intros Hin. apply Hnd. apply in_or_app. now left.
  - intros name normal Hall. unfold get_function. simpl negb. cbv iota.
    now apply get_function_loop_none.
  - simpl. apply name_index_keyed. intros k f [].
Qed.

Lemma C8_get_function_lookup_witness :
  get_function (Fixture.program_of Fixture.E_helper) "foo" false false
  = Raise (ValueError "Missing function")
  /\ get_function (Fixture.program_of Fixture.E_helper) "foo" true false
     = Ok (Function_new Fixture.foobar).
Proof.
  pose proof (@C8_get_function_lookup Fixture.X0
                (Fixture.fs_with Fixture.E_helper "c0ffee")
                "a.out.Quokka" "a.out"
                (Fixture.program_of Fixture.E_helper) eq_refl)
    as (Hexact & Hfirst & _ & _).
  split.
  - apply Hexact. simpl. intros fp [<-|[<-|[<-|[]]]]; discriminate.
  - apply (Hfirst "foo" false
                  [("helper", Function_new Fixture.helper_normal)]
                  "foobar" (Function_new Fixture.foobar) []).
    + reflexivity.
    + intros k' f' [H|[]]. inversion H. reflexivity.
    + reflexivity.
Defined.

(** ** Chunk resolution *)

(** C9.  When the chunk map holds a SuperChunk at an index, [get_chunk]
    without a block index raises ChunkMissingError (the spec's
    AmbiguousChunkError) and so never returns the SuperChunk; on an index
    the chunk map does not hold, [get_chunk] raises as well, with or without
    a block index. *)
Theorem C9_get_chunk_super_or_absent (P : Program) (chunk_index : Index) :
  (forall sc,
      Py.get Z.eqb (chunks P) chunk_index = Some (ESuperChunk sc) ->
      get_chunk P chunk_index None
      = Raise (ChunkMissingError
                 "Unable to find the chunk requested because its a super chunk"))
  /\ (Py.get Z.eqb (chunks P) chunk_index = None ->
      forall block_index,
        get_chunk P chunk_index block_index
        = Raise (ChunkMissingError "Unable to find the chunk, index unknown")).
Proof.
  split.
  - intros sc H. unfold get_chunk. rewrite H. reflexivity.
  - intros H block_index. unfold get_chunk. rewrite H. reflexivity.
Qed.

(** C10.  When the chunk map holds an ordinary Chunk at an index,
    [get_chunk] returns that Chunk for every block index, given or
    omitted. *)
Theorem C10_get_chunk_ignores_block_index (P : Program) (chunk_index : Index)
        (c : Chunk) (block_index : option Index) :
  Py.get Z.eqb (chunks P) chunk_index = Some (EChunk c) ->
  get_chunk P chunk_index block_index = Ok c.
Proof.
  intros H. unfold get_chunk. rewrite H. reflexivity.
Qed.

Lemma C10_get_chunk_ignores_block_index_witness :
  get_chunk (Fixture.program_of Fixture.E_mixed) 2 (Some 7)
  = Ok (ChunkOps.new 2 Fixture.cB).
Proof.
  apply (@C10_get_chunk_ignores_block_index
           (Fixture.program_of Fixture.E_mixed) 2
           (ChunkOps.new 2 Fixture.cB) (Some 7)).
  reflexivity.
Defined.

Example get_chunk_super_without_block :
  get_chunk (Fixture.program_of Fixture.E_mixed) 1 None
  = Raise (ChunkMissingError
             "Unable to find the chunk requested because its a super chunk").
Proof. reflexivity. Qed.

Example get_chunk_unknown_index :
  get_chunk (Fixture.program_of Fixture.E_mixed) 3 (Some 0)
  = Raise (ChunkMissingError "Unable to find the chunk, index unknown").
Proof. reflexivity. Qed.

Lemma C9_get_chunk_super_or_absent_witness :
  get_chunk (Fixture.program_of Fixture.E_mixed) 1 None
  = Raise (ChunkMissingError
             "Unable to find the chunk requested because its a super chunk").
Proof.
  apply (proj1 (C9_get_chunk_super_or_absent
                  (Fixture.program_of Fixture.E_mixed) 1)
               (mkSuperChunk 1
                  [mkChunk 1 20480 20488 NORMAL false [20484] [Fixture.ins 20480];
                   mkChunk 1 20488 20496 NORMAL false [] [Fixture.ins 20488]])).
  reflexivity.
Defined.

(** ** Instruction lookup *)

Lemma chunk_get_instruction_cases (c : Chunk) (a : AddressT) :
  (exists i, ChunkOps.get_instruction c a = Ok i /\ inst_address i = a)
  \/ ChunkOps.get_instruction c a
     = Raise (IndexError "Unable to find the instruction").
Proof.
  unfold ChunkOps.get_instruction.
  destruct (find _ (instructions c)) as [i|] eqn:F; [left | now right].
  exists i. split; [reflexivity|].
  apply find_some in F. destruct F as [_ F]. now apply Z.eqb_eq in F.
Qed.

Lemma entry_get_instruction_cases (e : ChunkEntry) (a : AddressT) :
  (exists i, entry_get_instruction e a = Ok i /\ inst_address i = a)
  \/ entry_get_instruction e a
     = Raise (IndexError "Unable to find the instruction").
Proof.
  destruct e as [c|[idx cs]]; simpl.
  - apply chunk_get_instruction_cases.
  - unfold SuperChunkOps.get_instruction. simpl.
    induction cs as [|c cs IH]; simpl; [now right|].
    destruct (chunk_get_instruction_cases c a) as [(i & -> & Hi) | ->].
    + left. now exists i.
    + exact IH.
Qed.

(** The loop either returns the instruction of an entry that contains the
    address and has a head there, or falls through to the final raise after
    every entry failed one of the two tests. *)
Lemma get_instruction_loop_spec (a : AddressT) :
  forall cs,
    match get_instruction_loop cs a with
    | Ok i =>
        inst_address i = a
        /\ exists e, In e cs /\ entry_in_chunk e a = true
                     /\ entry_get_instruction e a = Ok i
    | Raise x =>
        x = no_instruction a
        /\ forall e, In e cs ->
                     entry_in_chunk e a = false \/ has_head e a = false
    end.
Proof.
  induction cs as [|e cs IH]; simpl.
  - split; [reflexivity | intros e []].
  - destruct (entry_in_chunk e a) eqn:Hin.
    + destruct (entry_get_instruction_cases e a) as [(i & Hi & Ha) | Hr].
      * rewrite Hi. split; [assumption|]. exists e. auto.
      * rewrite Hr.
        destruct (get_instruction_loop cs a) as [i|x].
        -- destruct IH as (Ha & e' & He' & Hc & Hg). split; [assumption|].
           exists e'. auto.
        -- destruct IH as (Hx & Hall). split; [assumption|].
           intros e' [<-|He'].
           ++ right. unfold has_head. now rewrite Hr.
           ++ now apply Hall.
    + destruct (get_instruction_loop cs a) as [i|x].
      * destruct IH as (Ha & e' & He' & Hc & Hg). split; [assumption|].
        exists e'. auto.
      * destruct IH as (Hx & Hall). split; [assumption|].
        intros e' [<-|He']; [now left | now apply Hall].
Qed.

(** [get_instruction] in terms of the two methods of the entries. *)
Lemma get_instruction_by_entries (P : Program) (address : AddressT) :
  (get_instruction P address = Raise (no_instruction address)
   <-> forall e, In e (Py.values (chunks P)) ->
                 entry_in_chunk e address = false \/ has_head e address = false)
  /\ (forall x, get_instruction P address = Raise x -> x = no_instruction address)
  /\ (forall i, get_instruction P address = Ok i ->
                inst_address i = address
                /\ exists e, In e (Py.values (chunks P))
                             /\ entry_in_chunk e address = true
                             /\ entry_get_instruction e address = Ok i).
Proof.
  unfold get_instruction.
  pose proof (get_instruction_loop_spec address (Py.values (chunks P))) as H.
  destruct (get_instruction_loop (Py.values (chunks P)) address) as [i|x].
  - destruct H as (Ha & e & He & Hc & Hg). repeat split.
    + discriminate.
    + intros Hall. exfalso. destruct (Hall e He) as [H1|H1].
      * congruence.
      * unfold has_head in H1. rewrite Hg in H1. discriminate.
    + discriminate.
    + injection H as <-. assumption.
    + injection H as <-. exists e. auto.
  - destruct H as (-> & Hall). repeat split.
    + intros _. assumption.
    + congruence.
    + discriminate.
    + discriminate.
Qed.

Lemma in_chunk_range (c : Chunk) (a : AddressT) :
  ChunkOps.in_chunk c a = true <-> start c <= a < chunk_end c.
Proof.
  unfold ChunkOps.in_chunk. rewrite andb_true_iff, Z.leb_le, Z.ltb_lt. tauto.
Qed.

Lemma entry_covers (e : ChunkEntry) (a : AddressT) :
  entry_in_chunk e a = true <-> covers e a.
Proof.
  unfold covers. destruct e as [c|sc]; simpl.
  - rewrite in_chunk_range. split.
    + intros H. exists c. auto.
    + intros (c' & [<-|[]] & H). exact H.
  - unfold SuperChunkOps.in_chunk. rewrite existsb_exists. split.
    + intros (c & Hc & H). exists c. split; [exact Hc|].
      now apply in_chunk_range.
    + intros (c & Hc & H). exists c. split; [exact Hc|].
      now apply in_chunk_range.
Qed.

Lemma chunk_get_instruction_ok (c : Chunk) (a : AddressT) (i : Instruction) :
  ChunkOps.get_instruction c a = Ok i ->
  In i (instructions c) /\ inst_address i = a.
Proof.
  unfold ChunkOps.get_instruction.
  destruct (find _ (instructions c)) as [j|] eqn:F; [|discriminate].
  intros H. injection H as <-. apply find_some in F.
  destruct F as [Hin Ha]. now apply Z.eqb_eq in Ha.
Qed.

Lemma chunk_get_instruction_some (c : Chunk) (a : AddressT) (i : Instruction) :
  In i (instructions c) -> inst_address i = a ->
  exists j, ChunkOps.get_instruction c a = Ok j.
Proof.
  intros Hin Ha. unfold ChunkOps.get_instruction.
  destruct (find _ (instructions c)) as [j|] eqn:F; [now exists j|].
  exfalso. apply (find_none _ _ F) in Hin. simpl in Hin.
  apply Z.eqb_neq in Hin. contradiction.
Qed.

Lemma entry_get_instruction_ok (e : ChunkEntry) (a : AddressT) (i : Instruction) :
  entry_get_instruction e a = Ok i ->
  exists c, In c (constituents e) /\ In i (instructions c)
            /\ inst_address i = a.
Proof.
  destruct e as [c|[idx cs]]; simpl.
  - intros H. apply chunk_get_instruction_ok in H. exists c. tauto.
  - unfold SuperChunkOps.get_instruction. simpl.
    induction cs as [|c cs IH]; simpl; [discriminate|].
    destruct (ChunkOps.get_instruction c a) as [j|x] eqn:G.
    + intros H. injection H as <-. apply chunk_get_instruction_ok in G.
      exists c. tauto.
    + intros H. destruct (IH H) as (c' & Hc' & Hi). exists c'. tauto.
Qed.

Lemma entry_heads (e : ChunkEntry) (a : AddressT) :
  has_head e a = true <-> heads e a.
Proof.
  unfold has_head, heads. split.
  - destruct (entry_get_instruction e a) as [i|x] eqn:G; [|discriminate].
    intros _. apply entry_get_instruction_ok in G.
    destruct G as (c & Hc & Hi & Ha). now exists c, i.
  - intros (c & i & Hc & Hi & Ha).
    destruct e as [c0|[idx cs]]; simpl in *.
    + destruct Hc as [<-|[]].
      destruct (chunk_get_instruction_some c0 i Hi Ha) as [j ->]. reflexivity.
    + unfold SuperChunkOps.get_instruction. simpl.
      induction cs as [|c1 cs IH]; simpl; [contradiction|].
      destruct (ChunkOps.get_instruction c1 a) as [j|x] eqn:G; [reflexivity|].
      destruct Hc as [<-|Hc].
      * destruct (chunk_get_instruction_some c1 i Hi Ha) as [j Hj].
        congruence.
      * now apply IH.
Qed.

(** C7.  [get_instruction] raises its IndexError (the spec's
    NotFoundError) exactly when no entry of the chunk map both has a chunk
    whose range [[start, end)] contains the address and has an instruction
    whose head is at the address; it raises nothing else, a chunk being
    taken to raise IndexError when it has no instruction at the address.
    When it returns, the instruction has its head at the address and is an
    instruction of a chunk of an entry whose range contains the address;
    it does return whenever such an entry exists.  In particular an address
    inside the range of a chunk raises when no chunk has an instruction
    head at it. *)
Theorem C7_get_instruction_not_found (P : Program) (address : AddressT) :
  (get_instruction P address = Raise (no_instruction address)
   <-> forall e, In e (Py.values (chunks P)) ->
                 ~ (covers e address /\ heads e address))
  /\ (forall x, get_instruction P address = Raise x -> x = no_instruction address)
  /\ (forall i, get_instruction P address = Ok i ->
                inst_address i = address
                /\ exists e c, In e (Py.values (chunks P))
                               /\ covers e address
                               /\ In c (constituents e)
                               /\ In i (instructions c))
  /\ ((exists e, In e (Py.values (chunks P))
                 /\ covers e address /\ heads e address) ->
      exists i, get_instruction P address = Ok i /\ inst_address i = address)
  /\ (forall c, In (EChunk c) (Py.values (chunks P)) ->
                start c <= address < chunk_end c ->
                (forall e, In e (Py.values (chunks P)) -> ~ heads e address) ->
                get_instruction P address = Raise (no_instruction address)).
Proof.
  assert (Hraise : get_instruction P address = Raise (no_instruction address)
                   <-> forall e, In e (Py.values (chunks P)) ->
                                 ~ (covers e address /\ heads e address)).
  { rewrite (proj1 (get_instruction_by_entries P address)). split.
    - intros H e He [Hc Hh]. apply entry_covers in Hc. apply entry_heads in Hh.
      destruct (H e He); congruence.
    - intros H e He.
      destruct (entry_in_chunk e address) eqn:Hc; [|now left].
      destruct (has_head e address) eqn:Hh; [|now right].
      exfalso. apply (H e He). split.
      + now apply entry_covers.
      + now apply entry_heads. }
  destruct (get_instruction_by_entries P address) as (_ & Honly & Hok).
  split; [exact Hraise|]. split; [exact Honly|]. split; [|split].
  - intros i Hi. destruct (Hok i Hi) as (Ha & e & He & Hc & Hg).
    split; [exact Ha|]. apply entry_get_instruction_ok in Hg.
    destruct Hg as (c & Hcin & Hin & _).
    exists e, c. repeat split; try assumption. now apply entry_covers.
  - intros (e & He & Hc & Hh).
    destruct (get_instruction P address) as [i|x] eqn:G.
    + exists i. split; [reflexivity|]. exact (proj1 (Hok i eq_refl)).
    + exfalso. pose proof (Honly x eq_refl) as ->.
      apply (proj1 Hraise eq_refl e He). auto.
  - intros c Hc Hr Hno. apply Hraise. intros e He [_ Hh]. exact (Hno e He Hh).
Qed.

(** An address strictly inside the range of chunk A that is no instruction
    head: 4098 lies between the heads 4096 and 4100. *)
Example get_instruction_inside_not_head :
  get_instruction (Fixture.program_of Fixture.E_mixed) 4098
  = Raise (IndexError "No instruction at address 0x1002").
Proof. reflexivity. Qed.

Example get_instruction_at_head :
  get_instruction (Fixture.program_of Fixture.E_mixed) 4100
  = Ok (Fixture.ins 4100).
Proof. reflexivity. Qed.

Example get_instruction_outside_every_chunk :
  get_instruction (Fixture.program_of Fixture.E_mixed) 16
  = Raise (IndexError "No instruction at address 0x10").
Proof. reflexivity. Qed.

(** ** Iterating over the chunks *)

Lemma type_in_all (t : FunctionType) : type_in t all_FunctionType = true.
Proof. destruct t; reflexivity. Qed.

Lemma filter_all_types (cs : list Chunk) :
  filter (fun c => type_in (chunk_type c) all_FunctionType) cs = cs.
Proof.
  induction cs as [|c cs IH]; cbn [filter]; [reflexivity|].
  now rewrite type_in_all, IH.
Qed.

(** Without a filter, [iter_chunk] yields the constituents of every entry,
    entry after entry. *)
Lemma iter_chunk_None (P : Program) :
  iter_chunk P None = flat_map constituents (Py.values (chunks P)).
Proof.
  unfold iter_chunk. apply flat_map_ext. intros [c|sc]; cbn [constituents].
  - now rewrite type_in_all.
  - unfold SuperChunkOps.values. apply filter_all_types.
Qed.

Lemma get_some_in {V} (d : dict Z V) (k : Z) (v : V) :
  Py.get Z.eqb d k = Some v -> In (k, v) d.
Proof.
  induction d as [|[k0 v0] d IH]; simpl; [discriminate|].
  destruct (Z.eqb k0 k) eqn:E.
  - apply Z.eqb_eq in E. intros H. injection H as <-. subst. now left.
  - intros H. right. now apply IH.
Qed.

Lemma in_get_some {V} (d : dict Z V) (k : Z) (v : V) :
  NoDup (Py.keys d) -> In (k, v) d -> Py.get Z.eqb d k = Some v.
Proof.
  intros Hnd Hin. apply in_split in Hin. destruct Hin as (pre & post & ->).
  apply (get_at_split Z.eqb z_eqb_eq).
  unfold Py.keys in Hnd. rewrite map_app in Hnd. simpl in Hnd.
  apply NoDup_remove_2 in Hnd. intros H. apply Hnd. apply in_or_app. now left.
Qed.

Section ChunkMapFacts.
Variable X : Externals.

Let chunk_map (i : Z) (cps : list ChunkProto) : dict Index ChunkEntry :=
  map (chunk_entry X) (enumerate_from i cps).

Lemma chunk_map_keys_ge (cps : list ChunkProto) :
  forall i k, In k (Py.keys (chunk_map i cps)) -> i <= k.
Proof.
  induction cps as [|cp cps IH]; intros i k; simpl; [intros []|].
  intros [<-|H]; [lia|]. apply IH in H. lia.
Qed.

Lemma chunk_map_NoDup (cps : list ChunkProto) :
  forall i, NoDup (Py.keys (chunk_map i cps)).
Proof.
  induction cps as [|cp cps IH]; intros i; simpl; constructor.
  - intros H. apply chunk_map_keys_ge in H. lia.
  - apply IH.
Qed.

Lemma chunk_map_get (cps : list ChunkProto) :
  forall i k, i <= k < i + Z.of_nat (List.length cps) ->
              exists e, Py.get Z.eqb (chunk_map i cps) k = Some e.
Proof.
  induction cps as [|cp cps IH]; intros i k Hk; simpl in *; [lia|].
  destruct (Z.eqb i k) eqn:E; [eexists; reflexivity|].
  apply Z.eqb_neq in E. apply IH. lia.
Qed.

(** Asking the chunk map index by index meets its items one by one. *)
Lemma pairs_by_index (cps : list ChunkProto) :
  forall (s : nat) (d0 : dict Index ChunkEntry),
    (forall k, In k (Py.keys d0) -> k < Z.of_nat s) ->
    flat_map
      (fun ci => match Py.get Z.eqb (d0 ++ chunk_map (Z.of_nat s) cps) ci with
                 | Some e => map (pair ci) (block_indices e)
                 | None => []
                 end)
      (map Z.of_nat (seq s (List.length cps)))
    = pairs_of (chunk_map (Z.of_nat s) cps).
Proof.
  induction cps as [|cp cps IH]; intros s d0 Hd0; [reflexivity|].
  cbn [List.length seq map flat_map].
  unfold pairs_of. cbn [chunk_map enumerate_from map flat_map].
  change (chunk_entry X (Z.of_nat s, cp))
    with (Z.of_nat s, snd (chunk_entry X (Z.of_nat s, cp))).
  cbn [fst]. f_equal.
  - rewrite (get_at_split Z.eqb z_eqb_eq); [reflexivity|].
    intros H. apply Hd0 in H. lia.
  - specialize (IH (S s)
                    (d0 ++ [(Z.of_nat s, snd (chunk_entry X (Z.of_nat s, cp)))])).
    rewrite Nat2Z.inj_succ, <- Z.add_1_r in IH.
    rewrite <- app_assoc in IH. simpl app in IH.
    apply IH. intros k Hk. unfold Py.keys in Hk. rewrite map_app in Hk.
    apply in_app_or in Hk. destruct Hk as [Hk|[Hk|[]]].
    + apply Hd0 in Hk. lia.
    + simpl in Hk. lia.
Qed.

End ChunkMapFacts.

(** *** Order and uniqueness of the pairs *)

Lemma StronglySorted_app {A} (R : A -> A -> Prop) (l1 l2 : list A) :
  StronglySorted R l1 -> StronglySorted R l2 ->
  (forall x y, In x l1 -> In y l2 -> R x y) ->
  StronglySorted R (l1 ++ l2).
Proof.
  induction l1 as [|a l1 IH]; intros H1 H2 Hc; simpl; [assumption|].
  apply StronglySorted_inv in H1. destruct H1 as [H1 Ha].
  constructor.
  - apply IH; [assumption | assumption |].
    intros x y Hx Hy. apply Hc; [now right | assumption].
  - apply Forall_app. split; [assumption|].
    apply Forall_forall. intros y Hy. apply Hc; [now left | assumption].
Qed.

Lemma StronglySorted_NoDup {A} (R : A -> A -> Prop) (l : list A) :
  (forall x, ~ R x x) -> StronglySorted R l -> NoDup l.
Proof.
  intros Hirr. induction 1 as [|a l Hs IH Ha]; constructor; [|assumption].
  intros Hin. rewrite Forall_forall in Ha. apply (Hirr a). now apply Ha.
Qed.

Lemma pair_lt_irrefl (p : Index * option Index) : ~ pair_lt p p.
Proof.
  destruct p as [ci [b|]]; unfold pair_lt; simpl; intros [H|[_ H]];
    try lia; try contradiction.
Qed.

Lemma block_pairs_sorted (ci : Index) (n : nat) :
  forall s,
    StronglySorted pair_lt
      (map (pair ci) (map (fun i => Some (Z.of_nat i)) (seq s n))).
Proof.
  induction n as [|n IH]; intros s; simpl; constructor.
  - apply IH.
  - apply Forall_forall. intros p Hp.
    apply in_map_iff in Hp. destruct Hp as (b & <- & Hb).
    apply in_map_iff in Hb. destruct Hb as (i & <- & Hi).
    apply in_seq in Hi. right. simpl. split; [reflexivity | lia].
Qed.

Lemma entry_pairs_sorted (ci : Index) (e : ChunkEntry) :
  StronglySorted pair_lt (map (pair ci) (block_indices e)).
Proof.
  destruct e as [c|sc]; simpl.
  - repeat constructor.
  - apply block_pairs_sorted.
Qed.

Lemma pairs_of_fst (d : dict Index ChunkEntry) (p : Index * option Index) :
  In p (pairs_of d) -> In (fst p) (Py.keys d).
Proof.
  unfold pairs_of. intros H. apply in_flat_map in H.
  destruct H as (it & Hit & Hp). apply in_map_iff in Hp.
  destruct Hp as (b & <- & _). simpl. unfold Py.keys. now apply in_map.
Qed.

Lemma pairs_of_sorted (X : Externals) (cps : list ChunkProto) :
  forall i,
    StronglySorted pair_lt
      (pairs_of (map (chunk_entry X) (enumerate_from i cps))).
Proof.
  induction cps as [|cp cps IH]; intros i; [constructor|].
  unfold pairs_of. cbn [enumerate_from map flat_map].
  apply StronglySorted_app.
  - apply entry_pairs_sorted.
  - apply IH.
  - intros x y Hx Hy. left.
    apply in_map_iff in Hx. destruct Hx as (b & <- & _).
    apply pairs_of_fst in Hy. apply chunk_map_keys_ge in Hy.
    simpl. lia.
Qed.

(** *** What [get_chunk] returns on the pairs *)

Lemma by_position (l : list Chunk) (e : exn) :
  map (fun i => match nth_error l i with
                | Some c => Ok c
                | None => Raise e
                end) (seq 0 (List.length l))
  = map Ok l.
Proof.
  induction l as [|c l IH]; [reflexivity|].
  cbn [List.length seq map nth_error]. f_equal.
  rewrite <- seq_shift, map_map. exact IH.
Qed.

Lemma get_chunk_on_entry (P : Program) (ci : Index) (e : ChunkEntry) :
  Py.get Z.eqb (chunks P) ci = Some e ->
  map (fun p => get_chunk P (fst p) (snd p)) (map (pair ci) (block_indices e))
  = map Ok (constituents e).
Proof.
  intros Hget. rewrite map_map. cbn [fst snd].
  destruct e as [c|sc]; cbn [block_indices constituents map].
  - unfold get_chunk. rewrite Hget. reflexivity.
  - rewrite map_map.
    rewrite <- (by_position (sc_chunks sc)
                  (ChunkMissingError "Unable to find the chunk in the super chunk")).
    apply map_ext. intros i. unfold get_chunk. rewrite Hget.
    unfold SuperChunkOps.get_chunk_by_index.
    destruct (Z.of_nat i <? 0) eqn:E; [apply Z.ltb_lt in E; lia|].
    rewrite Nat2Z.id. reflexivity.
Qed.

Lemma get_chunk_on_pairs (P : Program) :
  forall its : dict Index ChunkEntry,
    (forall it, In it its -> Py.get Z.eqb (chunks P) (fst it) = Some (snd it)) ->
    map (fun p => get_chunk P (fst p) (snd p)) (pairs_of its)
    = map Ok (flat_map constituents (Py.values its)).
Proof.
  induction its as [|it its IH]; intros H; [reflexivity|].
  unfold pairs_of. cbn [flat_map Py.values map].
  rewrite !map_app. f_equal.
  - apply get_chunk_on_entry. apply H. now left.
  - apply IH. intros it' H'. apply H. now right.
Qed.

Lemma chunk_pairs_built (X : Externals) (E : Quokka) (ef : string) :
  chunk_pairs (built X E ef) = pairs_of (chunks (built X E ef)).
Proof.
  unfold chunk_pairs. simpl. unfold enumerate.
  exact (pairs_by_index X (function_chunks E) 0 [] (fun k H => match H with end)).
Qed.

(** C4.  For a constructed Program, [iter_chunk(None)] yields, in order,
    what [get_chunk] returns on the (chunk_index, block_index) pairs of the
    program: every chunk index from 0 to N-1 has an entry, an ordinary
    Chunk contributes its one pair and a SuperChunk one pair per
    constituent; the pairs are strictly ascending, by chunk index and then
    by block index, so none occurs twice; and every Chunk some call of
    [get_chunk] returns is the result on one of the pairs. *)
Theorem C4_iter_chunk_all_pairs (X : Externals) (fs : FileSystem)
        (ef ep : string) (P : Program) :
  Program_new X fs ef ep = Ok P ->
  map Ok (iter_chunk P None)
  = map (fun p => get_chunk P (fst p) (snd p)) (chunk_pairs P)
  /\ StronglySorted pair_lt (chunk_pairs P)
  /\ NoDup (chunk_pairs P)
  /\ (forall ci, 0 <= ci < Z.of_nat (List.length (function_chunks (proto P))) ->
                 exists e, Py.get Z.eqb (chunks P) ci = Some e)
  /\ (forall ci bi c,
         get_chunk P ci bi = Ok c ->
         exists bi', In (ci, bi') (chunk_pairs P) /\ get_chunk P ci bi' = Ok c).
Proof.
  intros HP. apply Program_new_inv in HP. destruct HP as (E & _ & _ & ->).
  assert (Hnd : NoDup (Py.keys (chunks (built X E ef)))).
  { simpl. apply chunk_map_NoDup. }
  assert (Hs : StronglySorted pair_lt (chunk_pairs (built X E ef))).
  { rewrite chunk_pairs_built. simpl. apply pairs_of_sorted. }
  repeat split.
  - rewrite chunk_pairs_built, iter_chunk_None. symmetry.
    apply get_chunk_on_pairs. intros [k e] Hin. now apply in_get_some.
  - exact Hs.
  - exact (StronglySorted_NoDup pair_lt_irrefl Hs).
  - intros ci Hci. simpl. unfold enumerate.
    apply (chunk_map_get X). simpl in Hci. lia.
  - intros ci bi c Hget. rewrite chunk_pairs_built.
    unfold get_chunk in Hget.
    destruct (Py.get Z.eqb (chunks (built X E ef)) ci) as [e|] eqn:G;
      [|discriminate].
    assert (Hin : forall b, In b (block_indices e) ->
                            In (ci, b) (pairs_of (chunks (built X E ef)))).
    { intros b Hb. unfold pairs_of. apply in_flat_map.
      exists (ci, e). split; [now apply get_some_in|].
      simpl. now apply in_map. }
    destruct e as [c'|sc].
    + exists None. split; [apply Hin; now left|].
      unfold get_chunk. rewrite G. exact Hget.
    + destruct bi as [b|]; [|discriminate].
      exists (Some b). split.
      * apply Hin. unfold SuperChunkOps.get_chunk_by_index in Hget.
        destruct (b <? 0) eqn:Eb; [discriminate|]. apply Z.ltb_ge in Eb.
        destruct (nth_error (sc_chunks sc) (Z.to_nat b)) eqn:En; [|discriminate].
        simpl. apply in_map_iff. exists (Z.to_nat b). split.
        -- now rewrite Z2Nat.id.
        -- apply in_seq. split; [lia|]. simpl.
           apply nth_error_Some. congruence.
      * unfold get_chunk. rewrite G. exact Hget.
Qed.

Lemma C4_iter_chunk_all_pairs_witness :
  map Ok (iter_chunk (Fixture.program_of Fixture.E_mixed) None)
  = map (fun p => get_chunk (Fixture.program_of Fixture.E_mixed) (fst p) (snd p))
        [(0, None); (1, Some 0); (1, Some 1); (2, None)].
Proof.
  exact (proj1 (@C4_iter_chunk_all_pairs Fixture.X0
                  (Fixture.fs_with Fixture.E_mixed "c0ffee")
                  "a.out.Quokka" "a.out"
                  (Fixture.program_of Fixture.E_mixed) eq_refl)).
Defined.

Example chunk_pairs_mixed :
  chunk_pairs (Fixture.program_of Fixture.E_mixed)
  = [(0, None); (1, Some 0); (1, Some 1); (2, None)].
Proof. reflexivity. Qed.

Example iter_chunk_mixed_starts :
  map start (iter_chunk (Fixture.program_of Fixture.E_mixed) None)
  = [4096; 20480; 20488; 8192].
Proof. reflexivity. Qed.

(** A filter keeps the chunks of the listed types only. *)
Example iter_chunk_filtered :
  iter_chunk (Fixture.program_of Fixture.E_mixed) (Some [THUNK]) = [].
Proof. reflexivity. Qed.

(** ** The call graph *)

Lemma Node_eqb_addr (a b : AddressT) : Node_eqb (NAddr a) (NAddr b) = (a =? b).
Proof.
  unfold Node_eqb. destruct (Node_eq_dec (NAddr a) (NAddr b)) as [H|H].
  - injection H as ->. symmetry. apply Z.eqb_refl.
  - symmetry. apply Z.eqb_neq. congruence.
Qed.

(** X17.  Two ordinary chunks that call one another: two nodes, two
    edges, a cycle of length two. *)
Lemma call_graph_two_cycle (P : Program) (iA iB : Index) (A B : Chunk) :
  chunks P = [(iA, EChunk A); (iB, EChunk B)] ->
  calls A = [start B] -> calls B = [start A] -> start A <> start B ->
  call_graph P
  = DiGraph.mk [NAddr (start A); NAddr (start B)]
               [(NAddr (start A), NAddr (start B));
                (NAddr (start B), NAddr (start A))].
Proof.
  intros Hc HA HB Hne. unfold call_graph. rewrite Hc. simpl.
  rewrite HA, HB. simpl.
  unfold DiGraph.add_edge, DiGraph.add_node, DiGraph.has_node,
    DiGraph.has_edge, Edge_eqb; simpl.
  rewrite !Node_eqb_addr, !Z.eqb_refl.
  assert (H1 : (start A =? start B) = false) by now apply Z.eqb_neq.
  assert (H2 : (start B =? start A) = false) by (apply Z.eqb_neq; congruence).
  repeat (progress (rewrite ?Node_eqb_addr, ?Z.eqb_refl, ?H1, ?H2; simpl)).
  reflexivity.
Qed.

Example call_graph_cycle :
  call_graph (Fixture.program_of Fixture.E_cycle)
  = DiGraph.mk [NAddr 4096; NAddr 8192]
               [(NAddr 4096, NAddr 8192); (NAddr 8192, NAddr 4096)].
Proof. reflexivity. Qed.

(** A call to an address where no chunk starts: a node with one incoming
    edge and none outgoing. *)
Example call_graph_sink :
  let g := call_graph (Fixture.program_of Fixture.E_sink) in
  DiGraph.has_node g (NAddr 65536) = true
  /\ DiGraph.in_degree g (NAddr 65536) = 1%nat
  /\ DiGraph.out_degree g (NAddr 65536) = 0%nat.
Proof. repeat split. Qed.

(** C6, the code at the failing input.  The export holds one fake chunk,
    which the splitter turns into a SuperChunk whose first constituent
    starts at 20480 and calls 20484.  The call graph has one edge, and its
    origin is the constituent Chunk object, not the address 20480: no node
    of the graph is the start address of the constituent, and no edge
    leaves that address. *)
Theorem C6_super_chunk_edge_leaves_chunk_object :
  let P := Fixture.program_of Fixture.E_super in
  let small := mkChunk 0 20480 20488 NORMAL false [20484] [Fixture.ins 20480] in
  Program_new Fixture.X0 (Fixture.fs_with Fixture.E_super "c0ffee")
              "a.out.Quokka" "a.out" = Ok P
  /\ Py.get Z.eqb (chunks P) 0
     = Some (ESuperChunk
               (mkSuperChunk 0 [small;
                  mkChunk 0 20488 20496 NORMAL false [] [Fixture.ins 20488]]))
  /\ DiGraph.edges (call_graph P) = [(NChunk small, NAddr 20484)]
  /\ DiGraph.has_node (call_graph P) (NAddr (start small)) = false
  /\ DiGraph.out_degree (call_graph P) (NAddr (start small)) = 0%nat.
Proof. repeat split. Qed.

(** *** Sinks: what holds on the path of ordinary chunks *)

Lemma Node_eqb_true (a b : Node) : Node_eqb a b = true <-> a = b.
Proof.
  unfold Node_eqb. destruct (Node_eq_dec a b); split; auto; discriminate.
Qed.

Lemma has_edge_in (g : DiGraph.t) (u v : Node) :
  DiGraph.has_edge g u v = true <-> In (u, v) (DiGraph.edges g).
Proof.
  unfold DiGraph.has_edge. rewrite existsb_exists. split.
  - intros ([u' v'] & Hin & He). unfold Edge_eqb in He. simpl in He.
    apply andb_true_iff in He. destruct He as [H1 H2].
    apply Node_eqb_true in H1, H2. now subst.
  - intros Hin. exists (u, v). split; [assumption|].
    unfold Edge_eqb. simpl. apply andb_true_iff.
    split; now apply Node_eqb_true.
Qed.

Lemma edges_add_node (g : DiGraph.t) (n : Node) :
  DiGraph.edges (DiGraph.add_node g n) = DiGraph.edges g.
Proof. unfold DiGraph.add_node. now destruct (DiGraph.has_node g n). Qed.

Lemma in_edges_add_edge (g : DiGraph.t) (e x : Node * Node) :
  In x (DiGraph.edges (DiGraph.add_edge g e)) <-> In x (DiGraph.edges g) \/ x = e.
Proof.
  unfold DiGraph.add_edge.
  set (g' := DiGraph.add_node (DiGraph.add_node g (fst e)) (snd e)).
  assert (Hg' : DiGraph.edges g' = DiGraph.edges g).
  { unfold g'. now rewrite !edges_add_node. }
  destruct (DiGraph.has_edge g' (fst e) (snd e)) eqn:H.
  - rewrite Hg'. split; [auto|]. intros [Hx| ->]; [assumption|].
    apply has_edge_in in H. rewrite Hg' in H. now destruct e.
  - simpl. rewrite Hg', in_app_iff. simpl. intuition congruence.
Qed.

Lemma in_edges_add_edges_from (es : list (Node * Node)) :
  forall (g : DiGraph.t) (x : Node * Node),
    In x (DiGraph.edges (DiGraph.add_edges_from g es))
    <-> In x (DiGraph.edges g) \/ In x es.
Proof.
  unfold DiGraph.add_edges_from.
  induction es as [|e es IH]; intros g x; simpl; [tauto|].
  rewrite IH, in_edges_add_edge. intuition congruence.
Qed.

(** The edges of the graph after some entries: an edge either was there,
    or leaves the start address of an ordinary chunk towards one of its
    call targets, or leaves a Chunk object. *)
Lemma in_edges_step (g : DiGraph.t) (e : ChunkEntry) (x : Node * Node) :
  In x (DiGraph.edges (call_graph_step g e)) ->
  In x (DiGraph.edges g)
  \/ (exists c, e = EChunk c /\ fst x = NAddr (start c))
  \/ (exists c, fst x = NChunk c).
Proof.
  destruct e as [c|sc]; simpl.
  - rewrite in_edges_add_edges_from, edges_add_node. intros [H|H]; [now left|].
    right. left. exists c. split; [reflexivity|].
    unfold product1 in H. apply in_map_iff in H. now destruct H as (v & <- & _).
  - generalize (Py.values (SuperChunkOps.starts sc)). intros l. revert g.
    induction l as [|small l IH]; intros g; simpl; [now left|].
    intros H. apply IH in H. destruct H as [H|H]; [|now right].
    apply in_edges_add_edges_from in H. destruct H as [H|H]; [now left|].
    right. right. exists small.
    unfold product1 in H. apply in_map_iff in H. now destruct H as (v & <- & _).
Qed.

Lemma edges_step_mono (g : DiGraph.t) (e : ChunkEntry) (x : Node * Node) :
  In x (DiGraph.edges g) -> In x (DiGraph.edges (call_graph_step g e)).
Proof.
  destruct e as [c|sc]; simpl.
  - intros H. apply in_edges_add_edges_from. left. now rewrite edges_add_node.
  - generalize (Py.values (SuperChunkOps.starts sc)). intros l. revert g.
    induction l as [|small l IH]; intros g H; simpl; [assumption|].
    apply IH. apply in_edges_add_edges_from. now left.
Qed.

Lemma edges_fold_mono (es : list ChunkEntry) :
  forall (g : DiGraph.t) (x : Node * Node),
    In x (DiGraph.edges g) ->
    In x (DiGraph.edges (fold_left call_graph_step es g)).
Proof.
  induction es as [|e es IH]; intros g x H; simpl; [assumption|].
  apply IH. now apply edges_step_mono.
Qed.

Lemma edges_fold_origin (es : list ChunkEntry) :
  forall (g : DiGraph.t) (x : Node * Node),
    In x (DiGraph.edges (fold_left call_graph_step es g)) ->
    In x (DiGraph.edges g)
    \/ (exists c, In (EChunk c) es /\ fst x = NAddr (start c))
    \/ (exists c, fst x = NChunk c).
Proof.
  induction es as [|e es IH]; intros g x H; simpl in *; [now left|].
  apply IH in H. destruct H as [H|[(c & Hc & Hx)|H]].
  - apply in_edges_step in H. destruct H as [H|[(c & -> & Hx)|H]]; auto.
    right. left. exists c. auto.
  - right. left. exists c. auto.
  - auto.
Qed.

Lemma edges_fold_call (es : list ChunkEntry) (c : Chunk) (target : AddressT) :
  forall g : DiGraph.t,
    In (EChunk c) es -> In target (calls c) ->
    In (NAddr (start c), NAddr target)
       (DiGraph.edges (fold_left call_graph_step es g)).
Proof.
  induction es as [|e es IH]; intros g Hin Ht; simpl in *; [contradiction|].
  destruct Hin as [->|Hin]; [|now apply IH].
  apply edges_fold_mono. simpl. apply in_edges_add_edges_from. right.
  unfold product1. apply in_map. now apply in_map.
Qed.

(** X18.  A call recorded by an ordinary chunk towards an address where no
    ordinary chunk starts: the address has an incoming edge and no outgoing
    one. *)
Lemma call_graph_dangling_target (P : Program) (c : Chunk) (target : AddressT) :
  In (EChunk c) (Py.values (chunks P)) ->
  In target (calls c) ->
  (forall c', In (EChunk c') (Py.values (chunks P)) -> start c' <> target) ->
  (1 <= DiGraph.in_degree (call_graph P) (NAddr target))%nat
  /\ DiGraph.out_degree (call_graph P) (NAddr target) = 0%nat.
Proof.
  intros Hc Ht Hno. split.
  - unfold DiGraph.in_degree.
    pose proof (edges_fold_call (Py.values (chunks P)) c target
                  DiGraph.empty Hc Ht) as He.
    fold (call_graph P) in He.
    assert (Hf : In (NAddr (start c), NAddr target)
                    (filter (fun e => Node_eqb (snd e) (NAddr target))
                            (DiGraph.edges (call_graph P)))).
    { apply filter_In. split; [assumption|]. now apply Node_eqb_true. }
    destruct (filter _ (DiGraph.edges (call_graph P))); [contradiction|].
    simpl. lia.
  - unfold DiGraph.out_degree.
    destruct (filter _ (DiGraph.edges (call_graph P))) as [|x l] eqn:F;
      [reflexivity|].
    exfalso. assert (Hx : In x (x :: l)) by now left.
    rewrite <- F in Hx. apply filter_In in Hx. destruct Hx as [Hx Hs].
    apply Node_eqb_true in Hs.
    apply edges_fold_origin in Hx. destruct Hx as [[]|[(c' & Hc' & Hx)|(c' & Hx)]].
    + rewrite Hs in Hx. injection Hx as Hx. apply (Hno c' Hc'). congruence.
    + rewrite Hs in Hx. discriminate.
Qed.

(** ** Integrity of the export *)

(** C3, the code on the failing input.  In [program.py] as it is written
    the name [parse_version] is not bound.  For an export that can be read
    and an executable whose digest differs from the stored hash, the
    constructor does not reach the hash check: it raises NameError at the
    version check, and not the QuokkaError "Hash mismatch" (the spec's
    IntegrityError) of the hash check.  What the claim says of the state
    holds all the same: at the raise the object has neither a chunk map nor
    a name index, its own mapping from start addresses to functions is
    empty, and nothing was logged. *)
Theorem C3_hash_check_is_not_reached (X : Externals) (fs : FileSystem)
        (ef ep : string) (E : Quokka) :
  parse_version X = None ->
  read_export fs ef = Ok E ->
  file_digest fs (hash_type (meta_hash E)) ep <> hash_value (meta_hash E) ->
  Program_new X fs ef ep
  = Raise (NameError "name 'parse_version' is not defined")
  /\ Program_new X fs ef ep <> Raise (QuokkaError "Hash mismatch")
  /\ exists s,
       __init__ X fs ef ep new_self
       = (s, Raise (NameError "name 'parse_version' is not defined"))
       /\ attr_chunks s = None
       /\ attr_fun_names s = None
       /\ self_items s = []
       /\ freeze s = None
       /\ self_log s = [].
Proof.
  intros Hunbound Hread _.
  assert (Hv : version_outcome X E
               = Raise (NameError "name 'parse_version' is not defined")).
  { unfold version_outcome. now rewrite Hunbound. }
  pose proof (init_cases X fs ef ep Hread) as Hinit. rewrite Hv in Hinit.
  assert (HP : Program_new X fs ef ep
               = Raise (NameError "name 'parse_version' is not defined")).
  { unfold Program_new. rewrite Hinit. reflexivity. }
  split; [exact HP|]. split; [rewrite HP; discriminate|].
  eexists. split; [exact Hinit|]. simpl. repeat split.
Qed.

Lemma C3_hash_check_is_not_reached_witness :
  Program_new Sample.X_as_written (Fixture.fs_with Fixture.E_mixed "0badc0de")
              "a.out.Quokka" "a.out"
  = Raise (NameError "name 'parse_version' is not defined").
Proof.
  apply (@C3_hash_check_is_not_reached Sample.X_as_written
           (Fixture.fs_with Fixture.E_mixed "0badc0de")
           "a.out.Quokka" "a.out" Fixture.E_mixed).
  - reflexivity.
  - reflexivity.
  - simpl. discriminate.
Defined.

(** X25.  Once [parse_version] is bound and parses both version strings,
    a digest that differs from the stored hash makes the constructor log
    an error and raise QuokkaError "Hash mismatch"; at the raise the object
    has neither a chunk map nor a name index and its mapping from start
    addresses to functions is empty. *)
Theorem hash_mismatch_once_bound (X : Externals) (fs : FileSystem)
        (ef ep : string) (E : Quokka) (records : list LogRecord) :
  read_export fs ef = Ok E ->
  version_outcome X E = Ok records ->
  file_digest fs (hash_type (meta_hash E)) ep <> hash_value (meta_hash E) ->
  Program_new X fs ef ep = Raise (QuokkaError "Hash mismatch")
  /\ exists s,
       __init__ X fs ef ep new_self = (s, Raise (QuokkaError "Hash mismatch"))
       /\ attr_chunks s = None
       /\ attr_fun_names s = None
       /\ self_items s = []
       /\ freeze s = None
       /\ self_log s = records ++ [LogError "Hash does not match with file."].
Proof.
  intros Hread Hv Hne.
  assert (Hhash : check_hash fs (meta_hash E) ep = false).
  { unfold check_hash. now apply String.eqb_neq. }
  pose proof (init_hash_mismatch X fs ef ep Hread Hv Hhash) as Hl.
  split.
  - unfold Program_new. rewrite Hl. reflexivity.
  - eexists. split; [exact Hl|]. simpl. repeat split.
Qed.

Lemma hash_mismatch_once_bound_witness :
  Program_new Fixture.X0 (Fixture.fs_with Fixture.E_mixed "0badc0de")
              "a.out.Quokka" "a.out"
  = Raise (QuokkaError "Hash mismatch").
Proof.
  apply (@hash_mismatch_once_bound Fixture.X0
           (Fixture.fs_with Fixture.E_mixed "0badc0de")
           "a.out.Quokka" "a.out" Fixture.E_mixed []).
  - reflexivity.
  - reflexivity.
  - simpl. discriminate.
Defined.

(** ** Exporting from the binary *)

Section FromBinaryFacts.
Variable X : Externals.
Variable W : World.
Variable fs : FileSystem.
Variables (exec_path : string) (output_file database_file : option string).
Variables (debug : bool) (timeout : option Z).

Let out : string :=
  match output_file with
  | None => sibling exec_path ".Quokka"
  | Some o => o
  end.

Lemma from_binary_missing_executable :
  is_file fs exec_path = false ->
  from_binary X W fs exec_path output_file database_file debug timeout
  = mkOutcome (Raise (FileNotFoundError "Missing exec file")) [].
Proof. intros H. unfold from_binary. rewrite H. reflexivity. Qed.

(** An export already at the expected path is loaded and no process is
    started. *)
Lemma from_binary_existing_export :
  is_file fs exec_path = true ->
  is_file fs out = true ->
  from_binary X W fs exec_path output_file database_file debug timeout
  = mkOutcome (load X out exec_path fs) [].
Proof.
  intros He Ho. unfold from_binary. rewrite He. simpl.
  fold out. rewrite Ho. reflexivity.
Qed.

(** X22.  The exporter exits with a non-zero code: [None]. *)
Lemma from_binary_exporter_fails (home : string) :
  is_file fs exec_path = true ->
  is_file fs out = false ->
  environ W "HOME" = Some home ->
  (forall cmd env, exists rc err fs',
      run_process W cmd env timeout fs = (Exited rc err, fs') /\ rc <> 0) ->
  returned (from_binary X W fs exec_path output_file database_file debug timeout)
  = Ok None.
Proof.
  intros He Ho Hh Hrun. unfold from_binary. rewrite He. simpl.
  fold out. rewrite Ho, Hh. unfold subprocess_run.
  match goal with
  | |- context [run_process W ?c ?e timeout fs] =>
      destruct (Hrun c e) as (rc & err & fs' & -> & Hrc)
  end.
  apply Z.eqb_neq in Hrc. rewrite Hrc. reflexivity.
Qed.

(** X23.  The exporter exits with code zero and leaves no file: [None]. *)
Lemma from_binary_no_output (home : string) :
  is_file fs exec_path = true ->
  is_file fs out = false ->
  environ W "HOME" = Some home ->
  (forall cmd env, exists err fs',
      run_process W cmd env timeout fs = (Exited 0 err, fs')
      /\ is_file fs' out = false) ->
  returned (from_binary X W fs exec_path output_file database_file debug timeout)
  = Ok None.
Proof.
  intros He Ho Hh Hrun. unfold from_binary. rewrite He. simpl.
  fold out. rewrite Ho, Hh. unfold subprocess_run.
  match goal with
  | |- context [run_process W ?c ?e timeout fs] =>
      destruct (Hrun c e) as (err & fs' & -> & Hf)
  end.
  simpl. rewrite Hf. reflexivity.
Qed.

End FromBinaryFacts.

(** C2, the code on the failing input.  The executable exists, no export
    exists yet, HOME is set, and the exporter runs past the timeout:
    [from_binary] does not return [None], it raises TimeoutExpired. *)
Theorem C2_timeout_is_raised (X : Externals) (W : World) (fs : FileSystem)
        (exec_path home : string) (output_file database_file : option string)
        (debug : bool) (timeout : option Z) :
  is_file fs exec_path = true ->
  is_file fs (match output_file with
              | None => sibling exec_path ".Quokka"
              | Some o => o
              end) = false ->
  environ W "HOME" = Some home ->
  (forall cmd env, fst (run_process W cmd env timeout fs) = TimedOut) ->
  returned (from_binary X W fs exec_path output_file database_file debug timeout)
  = Raise TimeoutExpired.
Proof.
  intros He Ho Hh Hrun. unfold from_binary. rewrite He. simpl.
  rewrite Ho, Hh. unfold subprocess_run.
  match goal with
  | |- context [run_process W ?c ?e timeout fs] =>
      pose proof (Hrun c e) as Hr;
      destruct (run_process W c e timeout fs) as [o fs']
  end.
  simpl in Hr. subst o. reflexivity.
Qed.

Lemma C2_timeout_is_raised_witness :
  returned (from_binary Fixture.X0 Fixture.W_timeout Fixture.fs_bare
                        "a.out" None None false (Some 600))
  = Raise TimeoutExpired.
Proof.
  apply (@C2_timeout_is_raised Fixture.X0 Fixture.W_timeout Fixture.fs_bare
           "a.out" "/root" None None false (Some 600)).
  - reflexivity.
  - reflexivity.
  - reflexivity.
  - intros cmd env. reflexivity.
Defined.

Example from_binary_fails_returns_None :
  from_binary Fixture.X0 Fixture.W_fails Fixture.fs_bare
              "a.out" None None false (Some 600)
  = mkOutcome (Ok None)
      [["idat64"; "-OQuokkaAuto:true"; "-OQuokkaFile:a.out.Quokka";
        "-oa.out"; "-A"; "a.out"]].
Proof. reflexivity. Qed.

Example from_binary_silent_returns_None :
  returned (from_binary Fixture.X0 Fixture.W_silent Fixture.fs_bare
                        "a.out" None None false (Some 600))
  = Ok None.
Proof. reflexivity. Qed.

Example from_binary_loads_existing :
  from_binary Fixture.X0 Fixture.W_timeout
              (Fixture.fs_with Fixture.E_mixed "c0ffee")
              "a.out" None None false (Some 600)
  = mkOutcome (Ok (Some (Fixture.program_of Fixture.E_mixed))) [].
Proof. reflexivity. Qed.

Example from_binary_missing :
  returned (from_binary Fixture.X0 Fixture.W_timeout Fixture.fs_bare
                        "b.out" None None false (Some 600))
  = Raise (FileNotFoundError "Missing exec file").
Proof. reflexivity. Qed.

(** ** Substrings *)

Lemma prefix_append (n h : string) :
  String.prefix n h = true <-> exists b, h = String.append n b.
Proof.
  revert h. induction n as [|c n IH]; intros h.
  - split; [intros _; now exists h | intros _; now destruct h].
  - destruct h as [|c' h]; simpl.
    + split; [discriminate | intros [b Hb]; discriminate].
    + destruct (ascii_dec c c') as [->|Hne].
      * rewrite IH. split; intros [b Hb]; exists b; congruence.
      * split; [discriminate | intros [b Hb]; congruence].
Qed.

Lemma str_contains_unfold (n h : string) :
  str_contains n h
  = if String.prefix n h then true
    else match h with
         | EmptyString => false
         | String _ rest => str_contains n rest
         end.
Proof. destruct h; reflexivity. Qed.

(** [str_contains] is Python's [in] on strings: the needle occurs somewhere
    in the haystack. *)
Lemma str_contains_spec (n h : string) :
  str_contains n h = true
  <-> exists a b, h = String.append a (String.append n b).
Proof.
  split.
  - induction h as [|c h IH]; rewrite str_contains_unfold.
    + destruct (String.prefix n EmptyString) eqn:E; [|discriminate].
      intros _. apply prefix_append in E. destruct E as [b Hb].
      now exists EmptyString, b.
    + destruct (String.prefix n (String c h)) eqn:E.
      * intros _. apply prefix_append in E. destruct E as [b Hb].
        now exists EmptyString, b.
      * intros H. destruct (IH H) as (a & b & ->).
        now exists (String c a), b.
  - intros (a & b & ->). induction a as [|c a IH]; rewrite str_contains_unfold.
    + simpl. replace (String.prefix n (String.append n b)) with true; [reflexivity|].
      symmetry. apply prefix_append. now exists b.
    + cbn [String.append].
      destruct (String.prefix n (String c (String.append a (String.append n b))));
        [reflexivity | exact IH].
Qed.

Example foo_in_foobar : str_contains "foo" "foobar" = true.
Proof. reflexivity. Qed.

Example oba_in_foobar : str_contains "oba" "foobar" = true.
Proof. reflexivity. Qed.

Example fob_not_in_foobar : str_contains "fob" "foobar" = false.
Proof. reflexivity. Qed.

Example format_x_255 : format_x 255 = "ff".
Proof. reflexivity. Qed.

Example format_x_negative : format_x (-255) = "-ff".
Proof. reflexivity. Qed.

(** * Beyond the claims *)

(** ** More on the constructor *)

Lemma version_outcome_records (X : Externals) (E : Quokka)
      (records : list LogRecord) :
  version_outcome X E = Ok records ->
  exists parse pv cv,
    parse_version X = Some parse
    /\ parse (exporter_meta_version E) = Ok pv
    /\ parse (quokka_version X) = Ok cv
    /\ records
       = if negb (fst pv =? fst cv)
         then [LogWarning (version_warning (exporter_meta_version E)
                                           (quokka_version X))]
         else if negb (String.eqb (exporter_meta_version E) (quokka_version X))
              then [LogDebug (version_debug (exporter_meta_version E)
                                            (quokka_version X))]
              else [].
Proof.
  unfold version_outcome.
  destruct (parse_version X) as [parse|]; [|discriminate].
  destruct (parse (exporter_meta_version E)) as [pv|] eqn:Hp; [|discriminate].
  destruct (parse (quokka_version X)) as [cv|] eqn:Hc; [|discriminate].
  intros H. injection H as <-. exists parse, pv, cv. auto.
Qed.

(** X1.  When the constructor has returned, the name [parse_version] was
    bound and parsed both version strings, and the log holds what the
    version check sent and nothing else: one warning, naming both versions,
    when the major versions differ; one debug record when the major
    versions agree and the version strings differ; nothing when the
    strings are equal.  The warning about two functions with the same name
    is never logged. *)
Theorem construction_log (X : Externals) (fs : FileSystem) (ef ep : string)
        (s : Self) :
  __init__ X fs ef ep new_self = (s, Ok tt) ->
  exists E parse pv cv,
    read_export fs ef = Ok E
    /\ parse_version X = Some parse
    /\ parse (exporter_meta_version E) = Ok pv
    /\ parse (quokka_version X) = Ok cv
    /\ freeze s = Some (built X E ef)
    /\ (fst pv <> fst cv ->
        self_log s
        = [LogWarning
             (String.append
                "The exported file has been generated by a different version of Quokka. The file has been generated by Quokka "
                (String.append (exporter_meta_version E)
                   (String.append " while you are using " (quokka_version X))))])
    /\ (fst pv = fst cv ->
        exporter_meta_version E <> quokka_version X ->
        self_log s
        = [LogDebug
             (String.append
                "Version mismatch detected but still compatible with the exported file. The file has been generated by Quokka "
                (String.append (exporter_meta_version E)
                   (String.append " while you are using " (quokka_version X))))])
    /\ (exporter_meta_version E = quokka_version X -> self_log s = [])
    /\ ~ In (LogWarning "Found two functions with the same name.") (self_log s).
Proof.
  intros Hinit.
  destruct (read_export fs ef) as [E|e] eqn:Hread.
  - rewrite (init_cases X fs ef ep Hread) in Hinit.
    destruct (version_outcome X E) as [records|x] eqn:Hv; [|discriminate].
    destruct (check_hash fs (meta_hash E) ep); [|discriminate].
    injection Hinit as <-.
    destruct (version_outcome_records X E Hv)
      as (parse & pv & cv & Hb & Hp & Hc & Hrec).
    exists E, parse, pv, cv. simpl.
    split; [reflexivity|]. split; [exact Hb|]. split; [exact Hp|].
    split; [exact Hc|]. split; [reflexivity|]. rewrite Hrec.
    split; [|split; [|split]].
    + intros Hne. apply Z.eqb_neq in Hne. rewrite Hne. reflexivity.
    + intros Heq Hne. apply Z.eqb_eq in Heq. rewrite Heq. simpl.
      apply String.eqb_neq in Hne. rewrite Hne. reflexivity.
    + intros Heq. rewrite Heq in Hp. rewrite Hp in Hc. injection Hc as <-.
      rewrite Z.eqb_refl, Heq, String.eqb_refl. reflexivity.
    + destruct (negb (_ =? _)); [intros [H|[]]; discriminate|].
      destruct (negb (String.eqb _ _));
        [intros [H|[]]; discriminate | intros []].
  - unfold __init__ in Hinit. revert Hinit.
    unfold Init.bind at 1. unfold Init.modify at 1.
    unfold Init.bind at 1. unfold Init.modify at 1.
    unfold Init.bind at 1. unfold Init.lift. rewrite Hread. discriminate.
Qed.

Lemma construction_log_witness :
  exists E parse pv cv,
    read_export (Fixture.fs_with Fixture.E_same_type "c0ffee") "a.out.Quokka"
    = Ok E
    /\ parse_version Sample.X_newer = Some parse
    /\ parse (exporter_meta_version E) = Ok pv
    /\ parse (quokka_version Sample.X_newer) = Ok cv
    /\ fst pv <> fst cv.
Proof.
  destruct (@construction_log Sample.X_newer
              (Fixture.fs_with Fixture.E_same_type "c0ffee")
              "a.out.Quokka" "a.out"
              (mkSelf (by_start (built Sample.X_newer Fixture.E_same_type
                                       "a.out.Quokka"))
                      (Some (Filled Fixture.E_same_type)) (Some "a.out.Quokka")
                      (Some MODE_LIGHT) (Some 0)
                      (Some []) 
                      (Some (fun_names (built Sample.X_newer Fixture.E_same_type
                                              "a.out.Quokka")))
                      [LogWarning
                         "The exported file has been generated by a different version of Quokka. The file has been generated by Quokka 0.5.5 while you are using 1.0.0"])
              eq_refl)
    as (E & parse & pv & cv & Hr & Hb & Hp & Hc & _).
  exists E, parse, pv, cv. repeat split; try assumption.
  simpl in Hr, Hb. injection Hr as <-. injection Hb as <-.
  simpl in Hp, Hc. injection Hp as <-. injection Hc as <-.
  simpl. discriminate.
Defined.

Example construction_log_patch_level :
  self_log (fst (__init__ Sample.X_patched
                          (Fixture.fs_with Fixture.E_same_type "c0ffee")
                          "a.out.Quokka" "a.out" new_self))
  = [LogDebug
       "Version mismatch detected but still compatible with the exported file. The file has been generated by Quokka 0.5.5 while you are using 0.5.6"].
Proof. reflexivity. Qed.

(** X2.  When the export cannot be read or parsed, the constructor raises
    the error of the read, before any check; [self.proto], a message
    nothing was parsed into, and [self.export_file] are the only
    attributes assigned, in this order. *)
Theorem constructor_read_error (X : Externals) (fs : FileSystem)
        (ef ep : string) (e : exn) :
  read_export fs ef = Raise e ->
  Program_new X fs ef ep = Raise e
  /\ __init__ X fs ef ep new_self
     = (mkSelf (Py.empty _ _) (Some Blank) (Some ef) None None None None [],
        Raise e).
Proof.
  intros Hread. unfold Program_new, __init__.
  unfold Init.bind at 1. unfold Init.modify at 1.
  unfold Init.bind at 1. unfold Init.modify at 1.
  unfold Init.bind at 1. unfold Init.lift. rewrite Hread. split; reflexivity.
Qed.

Lemma constructor_read_error_witness :
  Program_new Fixture.X0 Sample.fs_garbled "a.out.Quokka" "a.out"
  = Raise (DecodeError "Error parsing message").
Proof.
  apply (@constructor_read_error Fixture.X0 Sample.fs_garbled
           "a.out.Quokka" "a.out" (DecodeError "Error parsing message")).
  reflexivity.
Defined.

(** ** The chunk map of a constructed Program *)

Lemma chunk_map_keys (X : Externals) (cps : list ChunkProto) :
  forall s : nat,
    Py.keys (map (chunk_entry X) (enumerate_from (Z.of_nat s) cps))
    = map Z.of_nat (seq s (List.length cps)).
Proof.
  induction cps as [|cp cps IH]; intros s; simpl; [reflexivity|].
  f_equal. rewrite <- IH. now rewrite Nat2Z.inj_succ, <- Z.add_1_r.
Qed.

Lemma chunk_map_nth (X : Externals) (cps : list ChunkProto) :
  forall (z : Z) (i : nat) (cp : ChunkProto),
    nth_error cps i = Some cp ->
    Py.get Z.eqb (map (chunk_entry X) (enumerate_from z cps)) (z + Z.of_nat i)
    = Some (snd (chunk_entry X (z + Z.of_nat i, cp))).
Proof.
  induction cps as [|c cps IH]; intros z i cp Hn; [now destruct i|].
  destruct i as [|i]; simpl in Hn.
  - injection Hn as ->. simpl. rewrite Z.add_0_r, Z.eqb_refl. reflexivity.
  - cbn [enumerate_from map Py.get chunk_entry fst].
    replace (z =? z + Z.of_nat (S i)) with false by (symmetry; apply Z.eqb_neq; lia).
    replace (z + Z.of_nat (S i)) with (z + 1 + Z.of_nat i) by lia.
    now apply IH.
Qed.

Lemma chunk_map_outside (X : Externals) (cps : list ChunkProto) :
  forall (z k : Z),
    k < z \/ z + Z.of_nat (List.length cps) <= k ->
    Py.get Z.eqb (map (chunk_entry X) (enumerate_from z cps)) k = None.
Proof.
  induction cps as [|c cps IH]; intros z k Hk; [reflexivity|].
  cbn [enumerate_from map Py.get chunk_entry fst].
  replace (z =? k) with false by (symmetry; apply Z.eqb_neq; simpl in Hk; lia).
  apply IH. simpl in Hk. lia.
Qed.

(** X3.  After construction the keys of the chunk map are 0, 1, ..., N-1
    in this order, N the number of raw chunk records; the entry at an index
    is the Chunk view of the record at that index when the record is not
    flagged fake, and what the splitter makes of that view when it is. *)
Theorem chunk_map_entries (X : Externals) (fs : FileSystem) (ef ep : string)
        (P : Program) :
  Program_new X fs ef ep = Ok P ->
  Py.keys (chunks P)
  = map Z.of_nat (seq 0 (List.length (function_chunks (proto P))))
  /\ forall (i : nat) (cp : ChunkProto),
      nth_error (function_chunks (proto P)) i = Some cp ->
      Py.get Z.eqb (chunks P) (Z.of_nat i)
      = Some (if cp_fake cp
              then split_chunk X (ChunkOps.new (Z.of_nat i) cp)
              else EChunk (ChunkOps.new (Z.of_nat i) cp)).
Proof.
  intros HP. apply Program_new_inv in HP. destruct HP as (E & _ & _ & ->).
  simpl. unfold enumerate. split.
  - exact (chunk_map_keys X (function_chunks E) 0).
  - intros i cp Hn.
    exact (chunk_map_nth X (function_chunks E) 0 i Hn).
Qed.

Lemma chunk_map_entries_witness :
  Py.keys (chunks (Fixture.program_of Fixture.E_mixed)) = [0; 1; 2].
Proof.
  exact (proj1 (@chunk_map_entries Fixture.X0
                  (Fixture.fs_with Fixture.E_mixed "c0ffee")
                  "a.out.Quokka" "a.out"
                  (Fixture.program_of Fixture.E_mixed) eq_refl)).
Defined.

(** X4.  On a constructed Program, [get_chunk] raises ChunkMissingError
    for every chunk index below 0 or from N on, whatever the block index,
    and returns the Chunk view of the record for every index of a record
    that is not flagged fake. *)
Theorem get_chunk_bounds (X : Externals) (fs : FileSystem) (ef ep : string)
        (P : Program) :
  Program_new X fs ef ep = Ok P ->
  (forall ci bi,
      ci < 0 \/ Z.of_nat (List.length (function_chunks (proto P))) <= ci ->
      get_chunk P ci bi
      = Raise (ChunkMissingError "Unable to find the chunk, index unknown"))
  /\ (forall (i : nat) (cp : ChunkProto) bi,
         nth_error (function_chunks (proto P)) i = Some cp ->
         cp_fake cp = false ->
         get_chunk P (Z.of_nat i) bi = Ok (ChunkOps.new (Z.of_nat i) cp)).
Proof.
  intros HP. apply Program_new_inv in HP. destruct HP as (E & _ & _ & ->).
  split.
  - intros ci bi Hci. unfold get_chunk. simpl. unfold enumerate.
    rewrite chunk_map_outside; [reflexivity|]. simpl in Hci. lia.
  - intros i cp bi Hn Hf. unfold get_chunk. simpl. unfold enumerate.
    pose proof (chunk_map_nth X (function_chunks E) 0 i Hn) as Hg.
    change (0 + Z.of_nat i) with (Z.of_nat i) in Hg. rewrite Hg.
    simpl. rewrite Hf. reflexivity.
Qed.

Lemma get_chunk_bounds_witness :
  get_chunk (Fixture.program_of Fixture.E_mixed) (-1) None
  = Raise (ChunkMissingError "Unable to find the chunk, index unknown")
  /\ get_chunk (Fixture.program_of Fixture.E_mixed) 0 (Some 3)
     = Ok (ChunkOps.new 0 Fixture.cA).
Proof.
  pose proof (@get_chunk_bounds Fixture.X0
                (Fixture.fs_with Fixture.E_mixed "c0ffee")
                "a.out.Quokka" "a.out"
                (Fixture.program_of Fixture.E_mixed) eq_refl) as [Hout Hin].
  split.
  - apply Hout. left. reflexivity.
  - apply (Hin 0%nat Fixture.cA (Some 3)); reflexivity.
Defined.

(** ** The functions of a constructed Program *)

Lemma start_step_get (d : dict AddressT Function) (fp : FunctionProto)
      (a : AddressT) :
  Py.get Z.eqb (start_step d fp) a
  = if fp_start fp =? a then Some (Function_new fp) else Py.get Z.eqb d a.
Proof.
  unfold start_step. simpl. destruct (fp_start fp =? a) eqn:E.
  - apply Z.eqb_eq in E. subst a. apply (get_set_same Z.eqb z_eqb_eq).
  - apply Z.eqb_neq in E. now apply (get_set_other Z.eqb z_eqb_eq).
Qed.

Lemma start_index_get (fps : list FunctionProto) :
  forall (d : dict AddressT Function) (a : AddressT),
    Py.get Z.eqb (fold_left start_step fps d) a
    = fold_left (fun _ f => Some f)
                (filter (fun f => f_start f =? a) (map Function_new fps))
                (Py.get Z.eqb d a).
Proof.
  induction fps as [|fp fps IH]; intros d a; simpl; [reflexivity|].
  rewrite IH, start_step_get. now destruct (fp_start fp =? a).
Qed.

(** X5.  The Program maps a start address to the function of the export
    declared last with that start address: a later function silently
    replaces an earlier one; an address where no function starts is no
    key. *)
Theorem by_start_last_wins (X : Externals) (fs : FileSystem) (ef ep : string)
        (P : Program) :
  Program_new X fs ef ep = Ok P ->
  (forall a l f,
      filter (fun g => f_start g =? a) (map Function_new (functions (proto P)))
      = l ++ [f] ->
      Py.get Z.eqb (by_start P) a = Some f)
  /\ (forall a,
         (forall fp, In fp (functions (proto P)) -> fp_start fp <> a) ->
         Py.get Z.eqb (by_start P) a = None).
Proof.
  intros HP. apply Program_new_inv in HP. destruct HP as (E & _ & _ & ->).
  simpl. split.
  - intros a l f Hl. rewrite start_index_get, Hl, fold_left_app. reflexivity.
  - intros a Hno. rewrite start_index_get.
    replace (filter _ (map Function_new (functions E))) with (@nil Function);
      [reflexivity|].
    symmetry. induction (functions E) as [|fp fps IH]; [reflexivity|].
    simpl. replace (fp_start fp =? a) with false.
    + apply IH. intros fp' H'. apply Hno. now right.
    + symmetry. apply Z.eqb_neq. apply Hno. now left.
Qed.

Lemma by_start_last_wins_witness :
  Py.get Z.eqb (by_start (Fixture.program_of Sample.E_same_start)) 4096
  = Some (Function_new Sample.g_second).
Proof.
  apply (proj1 (@by_start_last_wins Fixture.X0
                  (Fixture.fs_with Sample.E_same_start "c0ffee")
                  "a.out.Quokka" "a.out"
                  (Fixture.program_of Sample.E_same_start) eq_refl)
               4096 [Function_new Sample.g_first]).
  reflexivity.
Defined.

Lemma FunctionType_eqb_eq (s t : FunctionType) :
  FunctionType_eqb s t = true <-> s = t.
Proof. destruct s, t; simpl; split; intros H; try reflexivity; discriminate. Qed.

Lemma collide_keeps (l : list Function) (f : Function) :
  (forall g, In g l -> f_type g <> NORMAL) ->
  fold_left collide l (Some f) = Some f.
Proof.
  induction l as [|g l IH]; intros Hl; simpl; [reflexivity|].
  replace (FunctionType_eqb (f_type g) NORMAL) with false.
  - apply IH. intros g' H'. apply Hl. now right.
  - symmetry. destruct (FunctionType_eqb (f_type g) NORMAL) eqn:E; [|reflexivity].
    apply FunctionType_eqb_eq in E. exfalso. apply (Hl g); [now left | assumption].
Qed.

Lemma collide_normal (o : option Function) (n : Function) :
  f_type n = NORMAL -> collide o n = Some n.
Proof. intros Hn. destruct o; simpl; [now rewrite Hn | reflexivity]. Qed.

(** X6.  The entry of the name index for a name, from the functions of the
    export that carry the name, in export order: a NORMAL function that no
    NORMAL function follows holds the entry, whatever precedes it, NORMAL
    functions included; when no function after the first one is NORMAL, the
    first one holds it; a name no function carries is no key. *)
Theorem name_index_entry (X : Externals) (fs : FileSystem) (ef ep : string)
        (P : Program) (name : string) :
  Program_new X fs ef ep = Ok P ->
  (forall pre n post,
      named name (functions (proto P)) = pre ++ n :: post ->
      f_type n = NORMAL ->
      (forall g, In g post -> f_type g <> NORMAL) ->
      Py.get String.eqb (fun_names P) name = Some n)
  /\ (forall f rest,
         named name (functions (proto P)) = f :: rest ->
         (forall g, In g rest -> f_type g <> NORMAL) ->
         Py.get String.eqb (fun_names P) name = Some f)
  /\ (named name (functions (proto P)) = [] ->
      Py.get String.eqb (fun_names P) name = None).
Proof.
  intros HP. apply Program_new_inv in HP. destruct HP as (E & _ & _ & ->).
  simpl. rewrite name_index_get. simpl. repeat split.
  - intros pre n post -> Hn Hpost.
    rewrite fold_left_app. simpl. rewrite (@collide_normal _ n Hn).
    now apply collide_keeps.
  - intros f rest -> Hrest. simpl. now apply collide_keeps.
  - intros ->. reflexivity.
Qed.

Lemma name_index_entry_witness :
  Py.get String.eqb (fun_names (Fixture.program_of Sample.E_three)) "n"
  = Some (Function_new Sample.n_normal).
Proof.
  apply (proj1 (@name_index_entry Fixture.X0
                  (Fixture.fs_with Sample.E_three "c0ffee")
                  "a.out.Quokka" "a.out"
                  (Fixture.program_of Sample.E_three) "n" eq_refl)
               [Function_new Sample.n_thunk]
               (Function_new Sample.n_normal)
               [Function_new Sample.n_library]).
  - reflexivity.
  - reflexivity.
  - intros g [<-|[]]. discriminate.
Defined.

Lemma collide_none (l : list Function) :
  fold_left collide l None = None -> l = [].
Proof.
  destruct l as [|f l]; [reflexivity|]. simpl. intros H. exfalso.
  revert f H. induction l as [|g l IH]; intros f H; simpl in H; [discriminate|].
  destruct (FunctionType_eqb (f_type g) NORMAL); now apply IH in H.
Qed.

(** X7.  The keys of the name index are the names the functions of the
    export carry, no more and no fewer, each once. *)
Theorem name_index_keys (X : Externals) (fs : FileSystem) (ef ep : string)
        (P : Program) :
  Program_new X fs ef ep = Ok P ->
  NoDup (Py.keys (fun_names P))
  /\ forall name,
      In name (Py.keys (fun_names P))
      <-> exists fp, In fp (functions (proto P)) /\ fp_name fp = name.
Proof.
  intros HP. apply Program_new_inv in HP. destruct HP as (E & _ & _ & ->).
  simpl. split; [apply name_index_NoDup; constructor|].
  intros name. split.
  - intros Hin.
    destruct (named name (functions E)) as [|f l] eqn:Hn.
    + exfalso.
      apply (proj1 (get_none_not_key String.eqb string_eqb_eq
                      (fold_left name_step (functions E) (Py.empty _ _)) name));
        [|exact Hin].
      rewrite name_index_get, Hn. reflexivity.
    + assert (Hf : In f (named name (functions E))) by (rewrite Hn; now left).
      unfold named in Hf. apply filter_In in Hf. destruct Hf as [Hf Hname].
      apply in_map_iff in Hf. destruct Hf as (fp & <- & Hfp).
      exists fp. split; [assumption|]. now apply String.eqb_eq in Hname.
  - intros (fp & Hfp & Hname).
    destruct (in_dec string_dec name
                (Py.keys (fold_left name_step (functions E) (Py.empty _ _))))
      as [Hin|Hout]; [assumption|].
    exfalso.
    apply (proj2 (get_none_not_key String.eqb string_eqb_eq
                    (fold_left name_step (functions E) (Py.empty _ _)) name))
      in Hout.
    rewrite name_index_get in Hout. simpl in Hout.
    apply collide_none in Hout.
    assert (Hf : In (Function_new fp) (named name (functions E))).
    { unfold named. apply filter_In. split; [now apply in_map|].
      simpl. now apply String.eqb_eq. }
    rewrite Hout in Hf. contradiction.
Qed.

Lemma name_index_keys_witness :
  In "foobar" (Py.keys (fun_names (Fixture.program_of Fixture.E_helper))).
Proof.
  apply (proj2 (@name_index_keys Fixture.X0
                  (Fixture.fs_with Fixture.E_helper "c0ffee")
                  "a.out.Quokka" "a.out"
                  (Fixture.program_of Fixture.E_helper) eq_refl) "foobar").
  exists Fixture.foobar. split; [|reflexivity].
  right. left. reflexivity.
Defined.

(** ** More on the queries *)

Lemma get_instruction_loop_skip (a : AddressT) (pre : list ChunkEntry) :
  forall rest,
    (forall e, In e pre -> entry_in_chunk e a = false \/ has_head e a = false) ->
    get_instruction_loop (pre ++ rest) a = get_instruction_loop rest a.
Proof.
  induction pre as [|e pre IH]; intros rest Hpre; [reflexivity|].
  simpl. rewrite IH by (intros e' H'; apply Hpre; now right).
  destruct (entry_in_chunk e a) eqn:Hin; [|reflexivity].
  destruct (Hpre e (or_introl eq_refl)) as [H|H]; [congruence|].
  unfold has_head in H.
  destruct (entry_get_instruction_cases e a) as [(i & Hi & _) | Hr].
  - rewrite Hi in H. discriminate.
  - rewrite Hr. reflexivity.
Qed.

(** X8.  [get_instruction] answers from the first entry of the chunk map,
    in chunk index order, that both contains the address and has an
    instruction head at it: an earlier entry that contains the address
    without a head there is passed over, and later entries are not
    consulted. *)
Theorem get_instruction_first_hit (P : Program) (address : AddressT)
        (pre post : list ChunkEntry) (e : ChunkEntry) (i : Instruction) :
  Py.values (chunks P) = pre ++ e :: post ->
  (forall e', In e' pre ->
              entry_in_chunk e' address = false \/ has_head e' address = false) ->
  entry_in_chunk e address = true ->
  entry_get_instruction e address = Ok i ->
  get_instruction P address = Ok i.
Proof.
  intros Hv Hpre Hin Hget. unfold get_instruction. rewrite Hv.
  rewrite get_instruction_loop_skip by assumption.
  simpl. rewrite Hin, Hget. reflexivity.
Qed.

Lemma get_instruction_first_hit_witness :
  get_instruction (Fixture.program_of Sample.E_overlap) 8196
  = Ok (Fixture.ins 8196).
Proof.
  apply (@get_instruction_first_hit
           (Fixture.program_of Sample.E_overlap) 8196
           [EChunk (ChunkOps.new 0 Sample.cWide)] []
           (EChunk (ChunkOps.new 1 Sample.cNarrow)) (Fixture.ins 8196)).
  - reflexivity.
  - intros e' [<-|[]]. right. reflexivity.
  - reflexivity.
  - reflexivity.
Defined.

Lemma get_some_in_str {V} (d : dict string V) (k : string) (v : V) :
  Py.get String.eqb d k = Some v -> In (k, v) d.
Proof.
  induction d as [|[k0 v0] d IH]; simpl; [discriminate|].
  destruct (String.eqb k0 k) eqn:E.
  - apply String.eqb_eq in E. intros H. injection H as <-. subst. now left.
  - intros H. right. now apply IH.
Qed.

Lemma name_index_from_export (fps : list FunctionProto) :
  forall (d : dict string Function) k f,
    In (k, f) (fold_left name_step fps d) ->
    In (k, f) d \/ exists fp, In fp fps /\ f = Function_new fp.
Proof.
  assert (Hset : forall (d : dict string Function) k0 f0 k f,
             In (k, f) (Py.set String.eqb d k0 f0) ->
             In (k, f) d \/ f = f0).
  { induction d as [|[k1 f1] d IHd]; intros k0 f0 k f; simpl.
    - intros [H|[]]. right. now inversion H.
    - destruct (String.eqb k1 k0); simpl; intros [H|H].
      + right. now inversion H.
      + left. now right.
      + left. now left.
      + apply IHd in H. destruct H; [left; now right | now right]. }
  induction fps as [|fp fps IH]; intros d k f Hin; simpl in Hin; [now left|].
  apply IH in Hin. destruct Hin as [Hin|(fp' & Hfp' & ->)].
  - unfold name_step in Hin. simpl in Hin.
    destruct (Py.get String.eqb d (fp_name fp)).
    + destruct (FunctionType_eqb (fp_type fp) NORMAL); [|now left].
      apply Hset in Hin. destruct Hin as [Hin| ->]; [now left|].
      right. exists fp. split; [now left | reflexivity].
    + apply Hset in Hin. destruct Hin as [Hin| ->]; [now left|].
      right. exists fp. split; [now left | reflexivity].
  - right. exists fp'. split; [now right | reflexivity].
Qed.

Lemma get_function_loop_hit (P : Program) (name : string) (normal : bool)
      (f : Function) :
  forall its,
    get_function_loop P its name normal = Ok f ->
    exists k g, In (k, g) its /\ matches name normal g = true
                /\ Py.get String.eqb (fun_names P) k = Some f.
Proof.
  induction its as [|[k g] its IH]; simpl; [discriminate|].
  fold (matches name normal g).
  destruct (matches name normal g) eqn:Hm.
  - destruct (Py.get String.eqb (fun_names P) k) as [f'|] eqn:G; [|discriminate].
    intros H. injection H as ->. exists k, g. auto.
  - intros H. destruct (IH H) as (k' & g' & Hin & Hm' & Hg).
    exists k', g'. auto.
Qed.

(** X9.  Whatever [get_function] returns on a constructed Program is a
    function of the export, stored in the name index under its own name.
    In exact mode its name is the name asked for, and the NORMAL-only flag
    plays no part; in approximate mode its name contains the name asked
    for, and it is NORMAL when the flag is set. *)
Theorem get_function_sound (X : Externals) (fs : FileSystem) (ef ep : string)
        (P : Program) (name : string) (approximative normal : bool)
        (f : Function) :
  Program_new X fs ef ep = Ok P ->
  get_function P name approximative normal = Ok f ->
  (exists fp, In fp (functions (proto P)) /\ f = Function_new fp)
  /\ Py.get String.eqb (fun_names P) (f_name f) = Some f
  /\ (approximative = false ->
      f_name f = name /\ get_function P name false (negb normal) = Ok f)
  /\ (approximative = true ->
      str_contains name (f_name f) = true
      /\ (normal = true -> f_type f = NORMAL)).
Proof.
  intros HP Hget. apply Program_new_inv in HP. destruct HP as (E & _ & _ & ->).
  assert (Hkeyed : keyed_by_name (fun_names (built X E ef))).
  { simpl. apply name_index_keyed. intros k g []. }
  assert (Hnd : NoDup (Py.keys (fun_names (built X E ef)))).
  { simpl. apply name_index_NoDup. constructor. }
  assert (Hexp : forall k g, In (k, g) (fun_names (built X E ef)) ->
                             exists fp, In fp (functions (proto (built X E ef)))
                                        /\ g = Function_new fp).
  { intros k g Hin. simpl in Hin. apply name_index_from_export in Hin.
    destruct Hin as [[]|H]; exact H. }
  set (Q := built X E ef) in *. clearbody Q.
  assert (Hin : exists k, In (k, f) (fun_names Q)
                          /\ Py.get String.eqb (fun_names Q) k = Some f
                          /\ (approximative = false -> k = name)
                          /\ (approximative = true -> matches name normal f = true)).
  { unfold get_function in Hget. destruct approximative; simpl in Hget.
    - apply get_function_loop_hit in Hget.
      destruct Hget as (k & g & Hi & Hm & Hg).
      assert (g = f) as ->.
      { apply in_split in Hi. destruct Hi as (l1 & l2 & Hi).
        unfold Py.items in Hi.
        assert (Hg' : Py.get String.eqb (fun_names Q) k = Some g).
        { rewrite Hi. apply (get_at_split String.eqb string_eqb_eq).
          rewrite Hi in Hnd. unfold Py.keys in Hnd. rewrite map_app in Hnd.
          simpl in Hnd. apply NoDup_remove_2 in Hnd.
          intros H. apply Hnd. apply in_or_app. now left. }
        congruence. }
      exists k. repeat split; auto. discriminate.
    - destruct (Py.get String.eqb _ name) as [g|] eqn:G; [|discriminate].
      injection Hget as ->. exists name. repeat split; auto.
      + now apply get_some_in_str.
      + discriminate. }
  destruct Hin as (k & Hi & Hg & Hex & Hap).
  pose proof (Hkeyed k f Hi) as Hname. subst k.
  split; [exact (Hexp _ _ Hi)|]. split; [exact Hg|]. split.
  - intros Ha. specialize (Hex Ha). split; [exact Hex|].
    unfold get_function. simpl. rewrite <- Hex, Hg. reflexivity.
  - intros Ha. specialize (Hap Ha). unfold matches in Hap.
    apply andb_true_iff in Hap. destruct Hap as [Hc Hn].
    split; [exact Hc|]. intros ->. simpl in Hn.
    now apply FunctionType_eqb_eq.
Qed.

Lemma get_function_sound_witness :
  f_name (Function_new Fixture.foobar) = "foobar"
  /\ get_function (Fixture.program_of Fixture.E_helper) "foobar" false true
     = Ok (Function_new Fixture.foobar).
Proof.
  exact (proj1 (proj2 (proj2 (@get_function_sound Fixture.X0
           (Fixture.fs_with Fixture.E_helper "c0ffee") "a.out.Quokka" "a.out"
           (Fixture.program_of Fixture.E_helper) "foobar" false false
           (Function_new Fixture.foobar) eq_refl eq_refl))) eq_refl).
Defined.

(** X10.  With a list of types, [iter_chunk] yields the chunks the
    unfiltered iteration yields whose type is in the list, in the same
    order. *)
Theorem iter_chunk_filter (P : Program) (chunk_types : list FunctionType) :
  iter_chunk P (Some chunk_types)
  = filter (fun c => type_in (chunk_type c) chunk_types) (iter_chunk P None).
Proof.
  rewrite iter_chunk_None. unfold iter_chunk.
  induction (Py.values (chunks P)) as [|e es IH]; [reflexivity|].
  cbn [flat_map]. rewrite filter_app, <- IH. f_equal.
  destruct e as [c|sc]; cbn [constituents filter]; [|reflexivity].
  now destruct (type_in (chunk_type c) chunk_types).
Qed.

Example iter_chunk_thunks :
  map start (iter_chunk (Fixture.program_of Sample.E_overlap) (Some [THUNK]))
  = [8196].
Proof. reflexivity. Qed.

(** ** More on the call graph *)

Lemma in_product1 (u : Node) (ts : list AddressT) (x : Node * Node) :
  In x (product1 u (map NAddr ts))
  <-> exists t, In t ts /\ x = (u, NAddr t).
Proof.
  unfold product1. rewrite in_map_iff. split.
  - intros (v & <- & Hv). apply in_map_iff in Hv.
    destruct Hv as (t & <- & Ht). now exists t.
  - intros (t & Ht & ->). exists (NAddr t). split; [reflexivity|].
    now apply in_map.
Qed.

Lemma in_edges_super (l : list Chunk) :
  forall (g : DiGraph.t) (x : Node * Node),
    In x (DiGraph.edges
            (fold_left (fun g small_chunk =>
                          DiGraph.add_edges_from g
                            (product1 (NChunk small_chunk)
                                      (map NAddr (calls small_chunk))))
                       l g))
    <-> In x (DiGraph.edges g)
        \/ exists small t, In small l /\ In t (calls small)
                           /\ x = (NChunk small, NAddr t).
Proof.
  induction l as [|s l IH]; intros g x; simpl.
  - split; [now left | intros [H|(s & t & [] & _)]; exact H].
  - rewrite IH, in_edges_add_edges_from, in_product1. split.
    + intros [[H|(t & Ht & ->)]|(s' & t & Hs' & Ht & ->)].
      * now left.
      * right. exists s, t. auto.
      * right. exists s', t. auto.
    + intros [H|(s' & t & [<-|Hs'] & Ht & ->)].
      * left. now left.
      * left. right. now exists t.
      * right. exists s', t. auto.
Qed.

(** What one entry of the chunk map adds to the edges. *)
Lemma in_edges_step_iff (g : DiGraph.t) (e : ChunkEntry) (x : Node * Node) :
  In x (DiGraph.edges (call_graph_step g e))
  <-> In x (DiGraph.edges g)
      \/ (exists c t, e = EChunk c /\ In t (calls c)
                      /\ x = (NAddr (start c), NAddr t))
      \/ (exists sc small t,
             e = ESuperChunk sc
             /\ In small (Py.values (SuperChunkOps.starts sc))
             /\ In t (calls small) /\ x = (NChunk small, NAddr t)).
Proof.
  destruct e as [c|sc]; simpl.
  - rewrite in_edges_add_edges_from, edges_add_node, in_product1. split.
    + intros [H|(t & Ht & ->)]; [now left|]. right. left. now exists c, t.
    + intros [H|[(c' & t & Hc & Ht & ->)|(sc & s & t & Hc & _)]].
      * now left.
      * injection Hc as <-. right. now exists t.
      * discriminate.
  - rewrite in_edges_super. split.
    + intros [H|(s & t & Hs & Ht & ->)]; [now left|].
      right. right. now exists sc, s, t.
    + intros [H|[(c' & t & Hc & _)|(sc' & s & t & Hc & Hs & Ht & ->)]].
      * now left.
      * discriminate.
      * injection Hc as <-. right. now exists s, t.
Qed.

(** X11.  The edges of the call graph are the recorded calls and nothing
    else: one edge from the start address of an ordinary chunk to each of
    its call targets, and one edge from each constituent Chunk object a
    SuperChunk holds under [starts] to each call target of the
    constituent. *)
Theorem call_graph_edges (P : Program) (u v : Node) :
  In (u, v) (DiGraph.edges (call_graph P))
  <-> (exists c t, In (EChunk c) (Py.values (chunks P)) /\ In t (calls c)
                   /\ u = NAddr (start c) /\ v = NAddr t)
      \/ (exists sc small t,
             In (ESuperChunk sc) (Py.values (chunks P))
             /\ In small (Py.values (SuperChunkOps.starts sc))
             /\ In t (calls small) /\ u = NChunk small /\ v = NAddr t).
Proof.
  unfold call_graph.
  assert (H : forall es g,
             In (u, v) (DiGraph.edges (fold_left call_graph_step es g))
             <-> In (u, v) (DiGraph.edges g)
                 \/ (exists c t, In (EChunk c) es /\ In t (calls c)
                                 /\ u = NAddr (start c) /\ v = NAddr t)
                 \/ (exists sc small t,
                        In (ESuperChunk sc) es
                        /\ In small (Py.values (SuperChunkOps.starts sc))
                        /\ In t (calls small)
                        /\ u = NChunk small /\ v = NAddr t)).
  { induction es as [|e es IH]; intros g; simpl.
    - split; [now left|].
      intros [H|[(c & t & [] & _)|(sc & s & t & [] & _)]]. exact H.
    - rewrite IH, in_edges_step_iff. split.
      + intros [[H|[(c & t & -> & Ht & Hx)|(sc & s & t & -> & Hs & Ht & Hx)]]
               |[(c & t & Hc & Ht & Hu & Hv)|(sc & s & t & Hc & Hs & Ht & Hu & Hv)]].
        * now left.
        * injection Hx as -> ->. right. left. exists c, t. auto.
        * injection Hx as -> ->. right. right. exists sc, s, t. auto.
        * right. left. exists c, t. auto.
        * right. right. exists sc, s, t. auto.
      + intros [H|[(c & t & [->|Hc] & Ht & -> & ->)
                  |(sc & s & t & [->|Hc] & Hs & Ht & -> & ->)]].
        * left. now left.
        * left. right. left. now exists c, t.
        * right. left. exists c, t. auto.
        * left. right. right. now exists sc, s, t.
        * right. right. exists sc, s, t. auto. }
  rewrite H. simpl. tauto.
Qed.

(** A chunk that calls itself: a self-loop. *)
Example call_graph_self_loop :
  In (NAddr 8196, NAddr 8196)
     (DiGraph.edges (call_graph (Fixture.program_of Sample.E_overlap))).
Proof. apply has_edge_in. reflexivity. Qed.

Lemma has_node_in (g : DiGraph.t) (n : Node) :
  DiGraph.has_node g n = true <-> In n (DiGraph.nodes g).
Proof.
  unfold DiGraph.has_node. rewrite existsb_exists. split.
  - intros (m & Hm & He). apply Node_eqb_true in He. now subst.
  - intros H. exists n. split; [assumption | now apply Node_eqb_true].
Qed.

Lemma in_nodes_add_node (g : DiGraph.t) (m n : Node) :
  In n (DiGraph.nodes (DiGraph.add_node g m)) <-> In n (DiGraph.nodes g) \/ n = m.
Proof.
  unfold DiGraph.add_node. destruct (DiGraph.has_node g m) eqn:H.
  - apply has_node_in in H. split; [now left | intros [Hn| ->]; assumption].
  - simpl. rewrite in_app_iff. simpl. intuition congruence.
Qed.

Lemma in_nodes_add_edge (g : DiGraph.t) (e : Node * Node) (n : Node) :
  In n (DiGraph.nodes (DiGraph.add_edge g e))
  <-> In n (DiGraph.nodes g) \/ n = fst e \/ n = snd e.
Proof.
  unfold DiGraph.add_edge.
  set (g' := DiGraph.add_node (DiGraph.add_node g (fst e)) (snd e)).
  assert (Hg' : In n (DiGraph.nodes g')
                <-> In n (DiGraph.nodes g) \/ n = fst e \/ n = snd e).
  { unfold g'. rewrite !in_nodes_add_node. tauto. }
  now destruct (DiGraph.has_edge g' (fst e) (snd e)).
Qed.

Lemma in_nodes_add_edges_from (es : list (Node * Node)) :
  forall (g : DiGraph.t) (n : Node),
    In n (DiGraph.nodes (DiGraph.add_edges_from g es))
    <-> In n (DiGraph.nodes g)
        \/ exists e, In e es /\ (n = fst e \/ n = snd e).
Proof.
  unfold DiGraph.add_edges_from.
  induction es as [|e es IH]; intros g n; simpl.
  - split; [now left | intros [H|(e & [] & _)]; exact H].
  - rewrite IH, in_nodes_add_edge. split.
    + intros [[H|H]|(e' & He' & H)].
      * now left.
      * right. exists e. auto.
      * right. exists e'. auto.
    + intros [H|(e' & [<-|He'] & H)].
      * left. now left.
      * left. now right.
      * right. exists e'. auto.
Qed.

Lemma in_nodes_calls (g : DiGraph.t) (u : Node) (ts : list AddressT) (n : Node) :
  In n (DiGraph.nodes (DiGraph.add_edges_from g (product1 u (map NAddr ts))))
  <-> In n (DiGraph.nodes g)
      \/ exists t, In t ts /\ (n = u \/ n = NAddr t).
Proof.
  rewrite in_nodes_add_edges_from. split.
  - intros [H|(e & He & Hn)]; [now left|].
    apply in_product1 in He. destruct He as (t & Ht & ->).
    right. now exists t.
  - intros [H|(t & Ht & Hn)]; [now left|].
    right. exists (u, NAddr t). split; [|exact Hn].
    apply in_product1. now exists t.
Qed.

Lemma in_nodes_super (l : list Chunk) :
  forall (g : DiGraph.t) (n : Node),
    In n (DiGraph.nodes
            (fold_left (fun g small_chunk =>
                          DiGraph.add_edges_from g
                            (product1 (NChunk small_chunk)
                                      (map NAddr (calls small_chunk))))
                       l g))
    <-> In n (DiGraph.nodes g)
        \/ exists small t, In small l /\ In t (calls small)
                           /\ (n = NChunk small \/ n = NAddr t).
Proof.
  induction l as [|s l IH]; intros g n; simpl.
  - split; [now left | intros [H|(s & t & [] & _)]; exact H].
  - rewrite IH, in_nodes_calls. split.
    + intros [[H|(t & Ht & Hn)]|(s' & t & Hs' & Ht & Hn)].
      * now left.
      * right. exists s, t. auto.
      * right. exists s', t. auto.
    + intros [H|(s' & t & [<-|Hs'] & Ht & Hn)].
      * left. now left.
      * left. right. now exists t.
      * right. exists s', t. auto.
Qed.

(** X12.  The nodes of the call graph: the start address of every ordinary
    chunk, whether it records a call or not, every call target, and the
    constituent Chunk objects of SuperChunks that record at least one call.
    A constituent that records no call is no node. *)
Theorem call_graph_nodes (P : Program) (n : Node) :
  In n (DiGraph.nodes (call_graph P))
  <-> (exists c, In (EChunk c) (Py.values (chunks P))
                 /\ (n = NAddr (start c)
                     \/ exists t, In t (calls c) /\ n = NAddr t))
      \/ (exists sc small t,
             In (ESuperChunk sc) (Py.values (chunks P))
             /\ In small (Py.values (SuperChunkOps.starts sc))
             /\ In t (calls small)
             /\ (n = NChunk small \/ n = NAddr t)).
Proof.
  unfold call_graph.
  assert (H : forall es g,
             In n (DiGraph.nodes (fold_left call_graph_step es g))
             <-> In n (DiGraph.nodes g)
                 \/ (exists c, In (EChunk c) es
                                /\ (n = NAddr (start c)
                                    \/ exists t, In t (calls c) /\ n = NAddr t))
                 \/ (exists sc small t,
                        In (ESuperChunk sc) es
                        /\ In small (Py.values (SuperChunkOps.starts sc))
                        /\ In t (calls small)
                        /\ (n = NChunk small \/ n = NAddr t))).
  { induction es as [|e es IH]; intros g; simpl.
    - split; [now left|].
      intros [H|[(c & [] & _)|(sc & s & t & [] & _)]]. exact H.
    - rewrite IH. destruct e as [c|sc]; simpl.
      + rewrite in_nodes_calls, in_nodes_add_node. split.
        * intros [[[H|H]|(t & Ht & [Hn|Hn])]
                 |[(c' & Hc' & Hn)|(sc & s & t & Hsc & Hs & Ht & Hn)]].
          -- now left.
          -- right. left. exists c. auto.
          -- right. left. exists c. auto.
          -- right. left. exists c. split; [now left|]. right. now exists t.
          -- right. left. exists c'. auto.
          -- right. right. exists sc, s, t. auto.
        * intros [H|[(c' & [Hc'|Hc'] & Hn)|(sc & s & t & [Hsc|Hsc] & Hs & Ht & Hn)]].
          -- left. left. now left.
          -- injection Hc' as <-. destruct Hn as [Hn|(t & Ht & Hn)].
             ++ left. left. now right.
             ++ left. right. exists t. auto.
          -- right. left. exists c'. auto.
          -- discriminate.
          -- right. right. exists sc, s, t. auto.
      + rewrite in_nodes_super. split.
        * intros [[H|(s & t & Hs & Ht & Hn)]
                 |[(c' & Hc' & Hn)|(sc' & s & t & Hsc & Hs & Ht & Hn)]].
          -- now left.
          -- right. right. exists sc, s, t. auto.
          -- right. left. exists c'. auto.
          -- right. right. exists sc', s, t. auto.
        * intros [H|[(c' & [Hc'|Hc'] & Hn)|(sc' & s & t & [Hsc|Hsc] & Hs & Ht & Hn)]].
          -- left. now left.
          -- discriminate.
          -- right. left. exists c'. auto.
          -- injection Hsc as <-. left. right. exists s, t. auto.
          -- right. right. exists sc', s, t. auto. }
  rewrite H. simpl. tauto.
Qed.

(** The second half of the split fake chunk records no call: it is no
    node of the graph. *)
Example call_graph_silent_constituent :
  DiGraph.has_node
    (call_graph (Fixture.program_of Fixture.E_super))
    (NChunk (mkChunk 0 20488 20496 NORMAL false [] [Fixture.ins 20488]))
  = false.
Proof. reflexivity. Qed.

Lemma call_graph_two_cycle_witness :
  call_graph (Fixture.program_of Fixture.E_cycle)
  = DiGraph.mk [NAddr 4096; NAddr 8192]
               [(NAddr 4096, NAddr 8192); (NAddr 8192, NAddr 4096)].
Proof.
  apply (@call_graph_two_cycle (Fixture.program_of Fixture.E_cycle) 0 1
           (ChunkOps.new 0 Fixture.cA) (ChunkOps.new 1 Fixture.cB)).
  - reflexivity.
  - reflexivity.
  - reflexivity.
  - simpl. discriminate.
Defined.

Lemma call_graph_dangling_target_witness :
  (1 <= DiGraph.in_degree (call_graph (Fixture.program_of Fixture.E_sink))
                          (NAddr 65536%Z))%nat
  /\ DiGraph.out_degree (call_graph (Fixture.program_of Fixture.E_sink))
                        (NAddr 65536) = 0%nat.
Proof.
  apply (@call_graph_dangling_target (Fixture.program_of Fixture.E_sink)
           (ChunkOps.new 0 Fixture.cC) 65536).
  - left. reflexivity.
  - left. reflexivity.
  - intros c' [H|[]]. injection H as <-. simpl. discriminate.
Defined.

(** ** Segments *)

Lemma get_segment_skip (a : AddressT) (pre : list Segment) :
  forall rest,
    (forall s, In s pre -> in_segment s a = false) ->
    get_segment (pre ++ rest) a = get_segment rest a.
Proof.
  induction pre as [|s pre IH]; intros rest Hpre; [reflexivity|].
  simpl. rewrite (Hpre s (or_introl eq_refl)).
  apply IH. intros s' H'. apply Hpre. now right.
Qed.

(** X13.  [get_segment] returns the first segment of the list whose range
    [[start, end)] contains the address, also when later segments contain
    it too; it raises KeyError exactly when no segment contains the
    address; the end of a segment is outside of it. *)
Theorem get_segment_first (segments : list Segment) (address : AddressT) :
  (forall pre s post,
      segments = pre ++ s :: post ->
      (forall s', In s' pre -> in_segment s' address = false) ->
      in_segment s address = true ->
      get_segment segments address = Ok s)
  /\ (get_segment segments address = Raise (no_segment address)
      <-> forall s, In s segments -> in_segment s address = false)
  /\ (forall s, get_segment segments address = Ok s ->
                In s segments /\ seg_start s <= address < seg_end s).
Proof.
  split; [|split].
  - intros pre s post -> Hpre Hs.
    rewrite get_segment_skip by assumption. simpl. now rewrite Hs.
  - induction segments as [|s l IH]; simpl.
    + split; [intros _ s [] | reflexivity].
    + destruct (in_segment s address) eqn:Hs.
      * split; [discriminate|]. intros H.
        rewrite (H s (or_introl eq_refl)) in Hs. discriminate.
      * rewrite IH. split.
        -- intros H s' [<-|H']; [assumption | now apply H].
        -- intros H s' H'. apply H. now right.
  - induction segments as [|s0 l IH]; simpl; [discriminate|].
    intros s. destruct (in_segment s0 address) eqn:Hs.
    + intros H. injection H as <-. split; [now left|].
      unfold in_segment in Hs. apply andb_true_iff in Hs.
      destruct Hs as [H1 H2]. apply Z.leb_le in H1. apply Z.ltb_lt in H2. lia.
    + intros H. destruct (IH s H) as [Hin Hr]. split; [now right | assumption].
Qed.

Lemma get_segment_first_witness :
  get_segment [Sample.text; Sample.overlay; Sample.data] 8100 = Ok Sample.text.
Proof.
  apply (proj1 (get_segment_first
                  [Sample.text; Sample.overlay; Sample.data] 8100)
               [] Sample.text [Sample.overlay; Sample.data]).
  - reflexivity.
  - intros s' [].
  - reflexivity.
Defined.

Example get_segment_end_is_outside :
  get_segment [Sample.text; Sample.data] 8192 = Ok Sample.data.
Proof. reflexivity. Qed.

Example get_segment_miss :
  get_segment [Sample.text; Sample.data] 255
  = Raise (KeyError "No segment has been found for address 0x255").
Proof. reflexivity. Qed.

(** ** Functions by chunk *)

Lemma extend_extend (o : option (list Function)) (l1 l2 : list Function) :
  extend (extend o l1) l2 = extend o (l1 ++ l2).
Proof.
  destruct l1 as [|a l1]; [reflexivity|].
  destruct l2 as [|b l2]; simpl.
  - now rewrite app_nil_r.
  - now rewrite <- app_assoc.
Qed.

Lemma defaultdict_append_get (d : dict Index (list Function)) (i k : Index)
      (f : Function) :
  Py.get Z.eqb (defaultdict_append d i f) k
  = if k =? i then extend (Py.get Z.eqb d k) [f] else Py.get Z.eqb d k.
Proof.
  unfold defaultdict_append. destruct (k =? i) eqn:E.
  - apply Z.eqb_eq in E. subst i.
    destruct (Py.get Z.eqb d k) eqn:G; simpl;
      apply (get_set_same Z.eqb z_eqb_eq).
  - apply Z.eqb_neq in E.
    destruct (Py.get Z.eqb d i);
      apply (get_set_other Z.eqb z_eqb_eq); congruence.
Qed.

Lemma append_all_get (f : Function) (idxs : list Index) :
  forall (d : dict Index (list Function)) (k : Index),
    Py.get Z.eqb
           (fold_left (fun d i => defaultdict_append d i f) idxs d) k
    = extend (Py.get Z.eqb d k) (map (fun _ => f) (filter (Z.eqb k) idxs)).
Proof.
  induction idxs as [|i idxs IH]; intros d k; simpl; [reflexivity|].
  rewrite IH, defaultdict_append_get.
  destruct (k =? i); [|reflexivity]. apply extend_extend.
Qed.

Lemma func_chunk_index_fold (fs : list Function) :
  forall (d : dict Index (list Function)) (k : Index),
    Py.get Z.eqb
           (fold_left
              (fun d function =>
                 fold_left (fun d i => defaultdict_append d i function)
                           (index_to_address function) d)
              fs d) k
    = extend (Py.get Z.eqb d k)
             (flat_map (fun f => map (fun _ => f)
                                     (filter (Z.eqb k) (index_to_address f)))
                       fs).
Proof.
  induction fs as [|f fs IH]; intros d k; simpl; [reflexivity|].
  rewrite IH, append_all_get. apply extend_extend.
Qed.

Lemma func_chunk_index_get (P : Program) (k : Index) :
  Py.get Z.eqb (func_chunk_index P) k = extend None (owners P k).
Proof. unfold func_chunk_index, owners. now rewrite func_chunk_index_fold. Qed.

Lemma in_owners (P : Program) (k : Index) (f : Function) :
  In f (owners P k)
  <-> In f (Py.values (by_start P)) /\ In k (index_to_address f).
Proof.
  unfold owners. rewrite in_flat_map. split.
  - intros (g & Hg & Hf). apply in_map_iff in Hf.
    destruct Hf as (i & <- & Hi). apply filter_In in Hi.
    destruct Hi as [Hi He]. apply Z.eqb_eq in He. subst i. auto.
  - intros [Hf Hk]. exists f. split; [assumption|].
    apply in_map_iff. exists k. split; [reflexivity|].
    apply filter_In. split; [assumption | apply Z.eqb_refl].
Qed.

(** X14.  On the index as first computed, [get_function_by_chunk] returns
    the functions of the Program that reference the index of the chunk, in
    the order the Program iterates over its functions; it raises IndexError
    exactly when no function references that index. *)
Theorem get_function_by_chunk_owners (P : Program) (chunk : Chunk) :
  (forall f, In f (owners P (proto_index chunk))
             <-> In f (Py.values (by_start P))
                 /\ In (proto_index chunk) (index_to_address f))
  /\ (owners P (proto_index chunk) <> [] ->
      fst (get_function_by_chunk (func_chunk_index P) chunk)
      = Ok (owners P (proto_index chunk)))
  /\ (owners P (proto_index chunk) = [] ->
      fst (get_function_by_chunk (func_chunk_index P) chunk)
      = Raise (IndexError
                 "No function has been found for the chunk. This is probably a Quokka bug and should be reported.")).
Proof.
  split; [intros f; apply in_owners|].
  unfold get_function_by_chunk, defaultdict_getitem.
  rewrite func_chunk_index_get.
  destruct (owners P (proto_index chunk)) as [|f l]; simpl; split.
  - congruence.
  - reflexivity.
  - reflexivity.
  - discriminate.
Qed.

Lemma get_function_by_chunk_owners_witness :
  fst (get_function_by_chunk
         (func_chunk_index (Fixture.program_of Sample.E_same_start))
         (ChunkOps.new 2 Fixture.cB))
  = Ok [Function_new Sample.g_second; Function_new Sample.g_other].
Proof.
  apply (proj1 (proj2 (get_function_by_chunk_owners
                         (Fixture.program_of Sample.E_same_start)
                         (ChunkOps.new 2 Fixture.cB)))).
  simpl. discriminate.
Defined.

(** X15.  A lookup that misses leaves the chunk index in the cached index
    with an empty list, and a lookup that hits leaves the index as it was;
    either way every later lookup answers as it would have before. *)
Theorem get_function_by_chunk_cache (index : dict Index (list Function))
        (chunk : Chunk) :
  (Py.get Z.eqb index (proto_index chunk) = None ->
   Py.get Z.eqb (snd (get_function_by_chunk index chunk)) (proto_index chunk)
   = Some [])
  /\ (Py.get Z.eqb index (proto_index chunk) <> None ->
      snd (get_function_by_chunk index chunk) = index)
  /\ forall chunk',
      fst (get_function_by_chunk (snd (get_function_by_chunk index chunk)) chunk')
      = fst (get_function_by_chunk index chunk').
Proof.
  unfold get_function_by_chunk at 1 2 4, defaultdict_getitem.
  destruct (Py.get Z.eqb index (proto_index chunk)) as [l|] eqn:G.
  - split; [discriminate|]. split; [now destruct l|].
    intros chunk'. now destruct l.
  - simpl. split; [intros _; apply (get_set_same Z.eqb z_eqb_eq)|].
    split; [congruence|]. intros chunk'.
    unfold get_function_by_chunk, defaultdict_getitem.
    destruct (Z.eq_dec (proto_index chunk) (proto_index chunk')) as [E|E].
    + rewrite <- E, (get_set_same Z.eqb z_eqb_eq), G. reflexivity.
    + rewrite (get_set_other Z.eqb z_eqb_eq) by assumption.
      destruct (Py.get Z.eqb index (proto_index chunk')) as [l|];
        [destruct l|]; reflexivity.
Qed.

Lemma get_function_by_chunk_cache_witness :
  Py.get Z.eqb
         (snd (get_function_by_chunk
                 (func_chunk_index (Fixture.program_of Sample.E_same_start))
                 (ChunkOps.new 1 Fixture.cFake))) 1
  = Some [].
Proof.
  apply (proj1 (get_function_by_chunk_cache
                  (func_chunk_index (Fixture.program_of Sample.E_same_start))
                  (ChunkOps.new 1 Fixture.cFake))).
  reflexivity.
Defined.

Lemma owners_head (P : Program) (k : Index) (pre post : list Function)
      (f : Function) :
  Py.values (by_start P) = pre ++ f :: post ->
  (forall g, In g pre -> ~ In k (index_to_address g)) ->
  In k (index_to_address f) ->
  exists l, owners P k = f :: l.
Proof.
  intros Hv Hpre Hf. unfold owners. rewrite Hv, flat_map_app.
  replace (flat_map _ pre) with (@nil Function).
  - simpl. destruct (filter (Z.eqb k) (index_to_address f)) as [|i l] eqn:F.
    + exfalso. assert (Hin : In k (filter (Z.eqb k) (index_to_address f))).
      { apply filter_In. split; [assumption | apply Z.eqb_refl]. }
      rewrite F in Hin. contradiction.
    + simpl. eexists. reflexivity.
  - symmetry. clear Hv. induction pre as [|g pre IH]; [reflexivity|].
    simpl. rewrite IH by (intros g' H'; apply Hpre; now right).
    rewrite app_nil_r.
    destruct (filter (Z.eqb k) (index_to_address g)) as [|i l] eqn:F;
      [reflexivity|].
    exfalso. apply (Hpre g (or_introl eq_refl)).
    assert (Hin : In i (filter (Z.eqb k) (index_to_address g)))
      by (rewrite F; now left).
    apply filter_In in Hin. destruct Hin as [Hin He].
    apply Z.eqb_eq in He. now subst.
Qed.

(** X16.  On the index as first computed, [get_first_function_by_chunk]
    returns the first function, in the order the Program iterates over its
    functions, that references the index of the chunk, and raises
    FunctionMissingError when no function references it. *)
Theorem get_first_function_by_chunk_first (P : Program) (chunk : Chunk) :
  (forall pre f post,
      Py.values (by_start P) = pre ++ f :: post ->
      (forall g, In g pre -> ~ In (proto_index chunk) (index_to_address g)) ->
      In (proto_index chunk) (index_to_address f) ->
      fst (get_first_function_by_chunk (func_chunk_index P) chunk) = Ok f)
  /\ ((forall g, In g (Py.values (by_start P)) ->
                 ~ In (proto_index chunk) (index_to_address g)) ->
      fst (get_first_function_by_chunk (func_chunk_index P) chunk)
      = Raise (FunctionMissingError "Missing function from chunk")).
Proof.
  unfold get_first_function_by_chunk, get_function_by_chunk, defaultdict_getitem.
  rewrite func_chunk_index_get. split.
  - intros pre f post Hv Hpre Hf.
    destruct (@owners_head P (proto_index chunk) pre post f Hv Hpre Hf) as [l ->].
    reflexivity.
  - intros Hno.
    destruct (owners P (proto_index chunk)) as [|f l] eqn:Ho; [reflexivity|].
    exfalso. assert (Hin : In f (owners P (proto_index chunk)))
      by (rewrite Ho; now left).
    apply in_owners in Hin. destruct Hin as [Hf Hk]. exact (Hno f Hf Hk).
Qed.

Lemma get_first_function_by_chunk_first_witness :
  fst (get_first_function_by_chunk
         (func_chunk_index (Fixture.program_of Sample.E_same_start))
         (ChunkOps.new 1 Fixture.cFake))
  = Raise (FunctionMissingError "Missing function from chunk").
Proof.
  apply (proj2 (get_first_function_by_chunk_first
                  (Fixture.program_of Sample.E_same_start)
                  (ChunkOps.new 1 Fixture.cFake))).
  intros g Hg. simpl in Hg. destruct Hg as [<-|[<-|[]]]; simpl.
  - intros [H|[H|[]]]; discriminate.
  - intros [H|[]]; discriminate.
Defined.

(** ** More on exporting from the binary *)

Lemma from_binary_exporter_fails_witness :
  returned (from_binary Fixture.X0 Fixture.W_fails Fixture.fs_bare
                        "a.out" None None false (Some 600))
  = Ok None.
Proof.
  apply (@from_binary_exporter_fails Fixture.X0 Fixture.W_fails Fixture.fs_bare
           "a.out" None None false (Some 600) "/root").
  - reflexivity.
  - reflexivity.
  - reflexivity.
  - intros cmd env. exists 1, "error", Fixture.fs_bare.
    split; [reflexivity | discriminate].
Defined.

Lemma from_binary_no_output_witness :
  returned (from_binary Fixture.X0 Fixture.W_silent Fixture.fs_bare
                        "a.out" None None false (Some 600))
  = Ok None.
Proof.
  apply (@from_binary_no_output Fixture.X0 Fixture.W_silent Fixture.fs_bare
           "a.out" None None false (Some 600) "/root").
  - reflexivity.
  - reflexivity.
  - reflexivity.
  - intros cmd env. exists "", Fixture.fs_bare. split; reflexivity.
Defined.



Example from_binary_opens_database :
  spawned (from_binary Fixture.X0 Fixture.W_silent Sample.fs_database
                       "a.out" None None false (Some 600))
  = [["idat64"; "-OQuokkaAuto:true"; "-OQuokkaFile:a.out.Quokka";
      "-A"; "a.out.i64"]].
Proof. reflexivity. Qed.

(** With the module as it is written, the export is made and the
    constructor then raises NameError. *)
Example from_binary_exports_as_written :
  returned (from_binary Sample.X_as_written (Sample.W_exports Fixture.E_mixed)
                        Fixture.fs_bare "a.out" None None false (Some 600))
  = Raise (NameError "name 'parse_version' is not defined").
Proof. reflexivity. Qed.

(** X20.  An export that is already there is loaded as it is: when the
    constructor raises on it, a stored hash that does not match the
    executable for one, [from_binary] raises the same exception and starts
    no exporter to make a new export. *)
Theorem from_binary_stale_export (X : Externals) (W : World) (fs : FileSystem)
        (exec_path : string) (output_file database_file : option string)
        (debug : bool) (timeout : option Z) (e : exn) :
  let out := match output_file with
             | None => sibling exec_path ".Quokka"
             | Some o => o
             end in
  is_file fs exec_path = true ->
  is_file fs out = true ->
  Program_new X fs out exec_path = Raise e ->
  from_binary X W fs exec_path output_file database_file debug timeout
  = mkOutcome (Raise e) [].
Proof.
  intros out He Ho Hraise.
  unfold from_binary. rewrite He. simpl. fold out. rewrite Ho.
  unfold load. rewrite Hraise. reflexivity.
Qed.

Lemma from_binary_stale_export_witness :
  from_binary Fixture.X0 Fixture.W_silent
              (Fixture.fs_with Fixture.E_mixed "0badc0de")
              "a.out" None None false (Some 600)
  = mkOutcome (Raise (QuokkaError "Hash mismatch")) [].
Proof.
  apply (@from_binary_stale_export Fixture.X0 Fixture.W_silent
           (Fixture.fs_with Fixture.E_mixed "0badc0de")
           "a.out" None None false (Some 600)
           (QuokkaError "Hash mismatch")).
  - reflexivity.
  - reflexivity.
  - reflexivity.
Defined.

(** X21.  Two ways [from_binary] raises before any process is started: the
    executable is no file (FileNotFoundError), or the executable is there,
    no export is, and HOME is not set in the environment (KeyError). *)
Theorem from_binary_raises_before_spawn (X : Externals) (W : World)
        (fs : FileSystem) (exec_path : string)
        (output_file database_file : option string)
        (debug : bool) (timeout : option Z) :
  (is_file fs exec_path = false ->
   from_binary X W fs exec_path output_file database_file debug timeout
   = mkOutcome (Raise (FileNotFoundError "Missing exec file")) [])
  /\ (is_file fs exec_path = true ->
      is_file fs (match output_file with
                  | None => sibling exec_path ".Quokka"
                  | Some o => o
                  end) = false ->
      environ W "HOME" = None ->
      from_binary X W fs exec_path output_file database_file debug timeout
      = mkOutcome (Raise (KeyError "HOME")) []).
Proof.
  split.
  - intros He. unfold from_binary. now rewrite He.
  - intros He Ho Hh. unfold from_binary. rewrite He. simpl.
    rewrite Ho, Hh. reflexivity.
Qed.

Lemma from_binary_raises_before_spawn_witness :
  from_binary Fixture.X0 Sample.W_homeless Fixture.fs_bare
              "a.out" None None false (Some 600)
  = mkOutcome (Raise (KeyError "HOME")) [].
Proof.
  apply (proj2 (from_binary_raises_before_spawn
                  Fixture.X0 Sample.W_homeless Fixture.fs_bare
                  "a.out" None None false (Some 600))).
  - reflexivity.
  - reflexivity.
  - reflexivity.
Defined.

(** X24.  The hash of a constructed Program is the hash its export stores,
    and it is the digest of the executable the Program was constructed
    with, under the algorithm the export names. *)
Theorem constructed_hash_is_digest (X : Externals) (fs : FileSystem)
        (ef ep : string) (P : Program) :
  Program_new X fs ef ep = Ok P ->
  read_export fs ef = Ok (proto P)
  /\ hash P = file_digest fs (hash_type (meta_hash (proto P))) ep.
Proof.
  intros HP. apply Program_new_inv in HP.
  destruct HP as (E & Hread & Hhash & ->). simpl. split; [exact Hread|].
  unfold check_hash in Hhash. apply String.eqb_eq in Hhash.
  unfold hash. simpl. now symmetry.
Qed.

Lemma constructed_hash_is_digest_witness :
  hash (Fixture.program_of Fixture.E_mixed) = "c0ffee".
Proof.
  exact (proj2 (@constructed_hash_is_digest Fixture.X0
                  (Fixture.fs_with Fixture.E_mixed "c0ffee")
                  "a.out.Quokka" "a.out"
                  (Fixture.program_of Fixture.E_mixed) eq_refl)).
Defined.
